(** * annotator-store: the Elasticsearch document model and query builder

    A shallow embedding of [annotator/elasticsearch.py].

    - Python values are the inductive [py]; a Python [dict] with string
      keys is a [gmap string py].  The iteration order of a dict is not
      observable in this model: [iteritems] enumerates the items in the
      order of [map_to_list], and every statement below about the list of
      match clauses is independent of that order.
    - Python integers are unbounded, hence [Z].
    - The Elasticsearch client, the clock and the logger are the outside
      world.  The client and the clock are operations on an abstract
      environment state; log records and the requests sent to the client
      are collected in traces.
    - Exceptions are values of [exn]; a computation returns [Ok v] or
      [Raise e] together with the new state. *)

From Stdlib Require Import Ascii String.
From stdpp Require Import gmap strings list fin_maps.

Set Warnings "-register-all".
Open Scope string_scope.
Open Scope list_scope.
Open Scope Z_scope.

(** ** Python values *)

Inductive py : Type :=
  | PNone
  | PBool (b : bool)
  | PInt (z : Z)
  | PStr (s : string)
  | PList (l : list py)
  | PDict (d : gmap string py).

(** A dict display [{k1: v1, ..., kn: vn}]: the items are stored from left
    to right, a later item replacing an earlier one with the same key. *)
Definition dict_display (items : list (string * py)) : gmap string py :=
  fold_left (λ d kv, <[kv.1 := kv.2]> d) items ∅.

(** [v[k]] for a string key, [None] where Python raises. *)
Definition py_getitem (k : string) (v : py) : option py :=
  match v with
  | PDict d => d !! k
  | _ => None
  end.

Definition py_as_list (v : py) : option (list py) :=
  match v with
  | PList l => Some l
  | _ => None
  end.

(** Truth value of a dict: an empty dict is false. *)
Definition dict_truthy (d : gmap string py) : bool :=
  bool_decide (d ≠ ∅).

(** [six.iteritems] *)
Definition iteritems (d : gmap string py) : list (string * py) :=
  map_to_list d.

(** ** Module constants *)

Definition RESULTS_MAX_SIZE : Z := 200.
Definition RESULTS_DEFAULT_SIZE : Z := 20.

(** ** The query builder *)

(** [{'match': {k: v}}] *)
Definition match_clause (kv : string * py) : py :=
  PDict (dict_display [("match", PDict (dict_display [(kv.1, kv.2)]))]).

(** [{'match_all': {}}] *)
Definition match_all_clause : py :=
  PDict (dict_display [("match_all", PDict ∅)]).

(** [{'updated': {'order': 'desc', 'ignore_unmapped': True}}] *)
Definition sort_updated : py :=
  PDict (dict_display
    [("updated", PDict (dict_display
        [("order", PStr "desc"); ("ignore_unmapped", PBool true)]))]).

Definition _build_query (query : gmap string py) (offset limit : Z)
  : gmap string py :=
  let match_clauses : list py := match_clause <$> iteritems query in
  let match_clauses : list py :=
    if decide (length match_clauses = 0%nat)
    then match_clauses ++ [match_all_clause]
    else match_clauses in
  dict_display
    [("sort", PList [sort_updated]);
     ("from", PInt (Z.max 0 offset));
     ("size", PInt (Z.min RESULTS_MAX_SIZE (Z.max 0 limit)));
     ("query", PDict (dict_display
        [("bool", PDict (dict_display [("must", PList match_clauses)]))]))].

(** Readers of a built request. *)
Definition request_must (q : gmap string py) : option (list py) :=
  qv ← (q !! "query" : option py);
  bv ← py_getitem "bool" qv;
  mv ← py_getitem "must" bv;
  py_as_list mv.

Definition request_sort (q : gmap string py) : option (list py) :=
  sv ← (q !! "sort" : option py); py_as_list sv.

(** ** Exceptions, results and the outside world *)

(** The exception classes the module meets: those of
    [elasticsearch.exceptions] ([RequestError], [NotFoundError],
    [ConflictError], [ConnectionError] and the base class [TransportError],
    each with the [error] text of the engine) and Python's [RuntimeError]
    with its two arguments. *)
Inductive exn : Type :=
  | RequestError (error : string)
  | NotFoundError (error : string)
  | ConflictError (error : string)
  | ConnectionError (error : string)
  | TransportError (status : Z) (error : string)
  | RuntimeError (message : string) (cause : exn).

Inductive result (A : Type) : Type :=
  | Ok (a : A)
  | Raise (e : exn).
Arguments Ok {A} a.
Arguments Raise {A} e.

(** [isinstance(e, elasticsearch.exceptions.RequestError)] *)
Definition is_RequestError (e : exn) : bool :=
  match e with
  | RequestError _ => true
  | _ => false
  end.

Inductive level : Type := INFO | WARN | FATAL.

(** One hit of the engine: its [_id] and its [_source]. *)
Record hit : Type := { hit_id : py; hit_source : gmap string py }.

(** The part of a search response the module reads:
    [res['hits']['total']] and [res['hits']['hits']]. *)
Record search_response : Type :=
  { hits_total : Z; hits_hits : list hit }.

(** The requests sent through [cls.es.conn], with their keyword
    arguments. *)
Inductive es_call : Type :=
  | call_indices_create (index : string)
  | call_indices_put_mapping (index doc_type : string)
      (body : gmap string py)
  | call_get (index doc_type : string) (id : py)
  | call_index (index doc_type : string) (body : gmap string py)
      (op_type : string) (refresh : bool)
  | call_search (index doc_type : string) (body params : gmap string py).

(** The outside world over a state [E]: the Elasticsearch client
    ([elasticsearch.Elasticsearch]) and the clock. *)
Record Client (E : Type) : Type := {
  es_indices_create : string → E → result unit * E;
  es_indices_put_mapping :
    string → string → gmap string py → E → result unit * E;
  es_get : string → string → py → E → result hit * E;
  es_index :
    string → string → gmap string py → string → bool → E → result py * E;
  es_search :
    string → string → gmap string py → gmap string py → E
    → result search_response * E;
  (** [datetime.datetime.now(iso8601.iso8601.UTC).isoformat()] *)
  utcnow_isoformat : E → string * E;
  (** [time.strftime(format)] *)
  time_strftime : string → E → string * E;
}.
Arguments es_indices_create {E} _ _ _.
Arguments es_indices_put_mapping {E} _ _ _ _ _.
Arguments es_get {E} _ _ _ _ _.
Arguments es_index {E} _ _ _ _ _ _ _.
Arguments es_search {E} _ _ _ _ _ _.
Arguments utcnow_isoformat {E} _ _.
Arguments time_strftime {E} _ _ _.

(** The state a method runs in: the outside world, the log records
    written so far and the requests sent so far. *)
Record world (E : Type) : Type := World {
  w_env : E;
  w_log : list (level * string);
  w_calls : list es_call;
}.
Arguments World {E} _ _ _.
Arguments w_env {E} _.
Arguments w_log {E} _.
Arguments w_calls {E} _.

(** The [ElasticSearch] wrapper object (its connection is the [Client]). *)
Record ElasticSearch : Type := {
  host : string;
  index : string;
  authorization_enabled : bool;
}.

(** A model class made by [make_model] and completed by a child class:
    [es], [__type__] and [__mapping__]. *)
Record ModelClass : Type := {
  es : ElasticSearch;
  __type__ : string;
  __mapping__ : gmap string py;
}.

(** ** String formatting *)

(** [template.format(a0, a1, ...)] for templates whose replacement fields are
    [{0}] to [{9}]; a field past the end of [args] (an [IndexError] in
    Python) is replaced by the empty string. *)
Fixpoint str_format (template : string) (args : list string) : string :=
  match template with
  | EmptyString => EmptyString
  | String c rest =>
      match c, rest with
      | "{"%char, String d (String "}"%char rest') =>
          nth (nat_of_ascii d - 48) args "" +:+ str_format rest' args
      | _, _ => String c (str_format rest args)
      end
  end.

(** ** Computations *)

(** A computation over the state [S]: a value or an exception, and the
    new state. *)
Definition M (S A : Type) : Type := S → result A * S.

Definition ret {S A : Type} (a : A) : M S A := λ s, (Ok a, s).

Definition raise {S A : Type} (e : exn) : M S A := λ s, (Raise e, s).

Definition bind {S A B : Type} (m : M S A) (k : A → M S B) : M S B :=
  λ s, match m s with
       | (Ok a, s') => k a s'
       | (Raise e, s') => (Raise e, s')
       end.

(** [try: m  except ... as e: handler e]; a handler that does not catch
    [e] raises it again. *)
Definition try_except {S A : Type} (m : M S A) (handler : exn → M S A)
  : M S A :=
  λ s, match m s with
       | (Ok a, s') => (Ok a, s')
       | (Raise e, s') => handler e s'
       end.

Notation "x <~ m ;; k" := (bind m (λ x, k))
  (at level 100, m at next level, right associativity).
Notation "m ;;; k" := (bind m (λ _, k))
  (at level 100, right associativity).

Section Model.
Context {E : Type} (client : Client E).

(** [log.info], [log.warn] and [log.fatal] *)
Definition log (l : level) (msg : string) : M (world E) unit :=
  λ w, (Ok tt, World (w_env w) (w_log w ++ [(l, msg)]) (w_calls w)).

(** A request through the connection: it is recorded, and the client
    answers it. *)
Definition request {A : Type} (c : es_call) (f : E → result A * E)
  : M (world E) A :=
  λ w, let '(r, e) := f (w_env w) in
       (r, World e (w_log w) (w_calls w ++ [c])).

(** A reading of the clock. *)
Definition read_clock (f : E → string * E) (w : world E)
  : string * world E :=
  let '(t, e) := f (w_env w) in (t, World e (w_log w) (w_calls w)).

Definition clock (f : E → string * E) : M (world E) string :=
  λ w, let '(t, w') := read_clock f w in (Ok t, w').

Definition conn_indices_create (idx : string) : M (world E) unit :=
  request (call_indices_create idx) (es_indices_create client idx).

Definition conn_indices_put_mapping (idx doc_type : string)
    (body : gmap string py) : M (world E) unit :=
  request (call_indices_put_mapping idx doc_type body)
          (es_indices_put_mapping client idx doc_type body).

Definition conn_get (idx doc_type : string) (id : py) : M (world E) hit :=
  request (call_get idx doc_type id) (es_get client idx doc_type id).

Definition conn_index (idx doc_type : string) (body : gmap string py)
    (op_type : string) (refresh : bool) : M (world E) py :=
  request (call_index idx doc_type body op_type refresh)
          (es_index client idx doc_type body op_type refresh).

Definition conn_search (idx doc_type : string)
    (body params : gmap string py) : M (world E) search_response :=
  request (call_search idx doc_type body params)
          (es_search client idx doc_type body params).

(** [cls(source, id=id)]: a dict built from [source], then [id] set. *)
Definition new_instance (source : gmap string py) (id : py)
  : gmap string py :=
  <["id" := id]> source.

(** *** [_Model.get_mapping] *)
Definition get_mapping (cls : ModelClass) : gmap string py :=
  dict_display
    [(__type__ cls, PDict (dict_display
        [("_id", PDict (dict_display [("path", PStr "id")]));
         ("_source", PDict (dict_display
            [("excludes", PList [PStr "id"])]));
         ("analyzer", PStr "keyword");
         ("properties", PDict (__mapping__ cls))]))].

(** *** [_Model.create_all] *)
Definition index_exists_error (error : string) : bool :=
  String.prefix "IndexAlreadyExistsException" error
  || String.prefix "InvalidIndexNameException" error.

Definition reindex_template : string :=
  "Elasticsearch index mapping is incorrect! Please reindex "
  +:+ "it. E.g. use annotator-store's reindex.py: "
  +:+ "$ python reindex.py --host {0} --alias {1} {1} {1}_{2}".

Definition create_all (cls : ModelClass) : M (world E) unit :=
  log INFO ("Creating index '" +:+ index (es cls) +:+ "'.") ;;;
  try_except (conn_indices_create (index (es cls)))
    (λ e, match e with
          | RequestError error =>
              if negb (index_exists_error error)
              then log FATAL "Failed to create an Elasticsearch index" ;;;
                   raise e
              else log WARN
                "Index creation failed as index appears to already exist."
          | _ => raise e
          end) ;;;
  let mapping := get_mapping cls in
  try_except
    (conn_indices_put_mapping (index (es cls)) (__type__ cls) mapping)
    (λ e, match e with
          | RequestError error =>
              if String.prefix "MergeMappingException" error
              then date <~ clock (time_strftime client "%Y-%m-%d") ;;
                   raise (RuntimeError
                     (str_format reindex_template
                        [host (es cls); index (es cls); date])
                     e)
              else ret tt
          | _ => raise e
          end).

(** *** [_Model.fetch] *)
Definition fetch (cls : ModelClass) (id : py)
  : M (world E) (option (gmap string py)) :=
  found <~ try_except
    (doc <~ conn_get (index (es cls)) (__type__ cls) id ;;
     ret (Some doc))
    (λ e, match e with
          | NotFoundError _ => ret None
          | _ => raise e
          end) ;;
  match found with
  | None => ret None
  | Some doc => ret (Some (new_instance (hit_source doc) id))
  end.

(** *** [_Model._build_query], the class method in front of the module's
    [_build_query] *)
Definition _Model_build_query (query : option (gmap string py))
    (offset limit : option Z) : gmap string py :=
  let offset := match offset with None => 0 | Some o => o end in
  let limit :=
    match limit with None => RESULTS_DEFAULT_SIZE | Some l => l end in
  let query := match query with None => ∅ | Some q => q end in
  _build_query query offset limit.

(** What [search] and [search_raw] return: a list of instances, or the
    response of the engine as it is. *)
Inductive search_result : Type :=
  | Instances (docs : list (gmap string py))
  | RawResponse (res : search_response).

(** *** [_Model.search_raw] *)
Definition search_raw (cls : ModelClass) (query : option (gmap string py))
    (params : option (gmap string py)) (raw_result : bool)
  : M (world E) search_result :=
  let query := match query with None => ∅ | Some q => q end in
  let params := match params with None => ∅ | Some p => p end in
  res <~ conn_search (index (es cls)) (__type__ cls) query params ;;
  if negb raw_result
  then ret (Instances
         ((λ d, new_instance (hit_source d) (hit_id d)) <$> hits_hits res))
  else ret (RawResponse res).

(** *** [_Model.search]; the keyword arguments it forwards are [params]
    and [raw_result] *)
Definition search (cls : ModelClass) (query : option (gmap string py))
    (offset limit : option Z)
    (params : option (gmap string py)) (raw_result : bool)
  : M (world E) search_result :=
  let q := _Model_build_query query offset limit in
  if negb (dict_truthy q)
  then ret (Instances [])
  else search_raw cls (Some q) params raw_result.

(** *** [_add_created] and [_add_updated]: they change [ann] in place *)
Definition _add_created (ann : gmap string py) (w : world E)
  : gmap string py * world E :=
  if bool_decide (ann !! "created" = None)
  then let '(t, w') := read_clock (utcnow_isoformat client) w in
       (<["created" := PStr t]> ann, w')
  else (ann, w).

Definition _add_updated (ann : gmap string py) (w : world E)
  : gmap string py * world E :=
  let '(t, w') := read_clock (utcnow_isoformat client) w in
  (<["updated" := PStr t]> ann, w').

(** *** [_Model.save]: a method of the instance [self], which is part of
    the state *)
Definition on_self (f : gmap string py → world E → gmap string py * world E)
  : M (gmap string py * world E) unit :=
  λ s, (Ok tt, f s.1 s.2).

Definition the_self : M (gmap string py * world E) (gmap string py) :=
  λ s, (Ok s.1, s).

Definition in_world {A : Type} (m : M (world E) A)
  : M (gmap string py * world E) A :=
  λ s, let '(r, w) := m s.2 in (r, (s.1, w)).

Definition setitem (k : string) (v : py)
  : M (gmap string py * world E) unit :=
  λ s, (Ok tt, (<[k := v]> s.1, s.2)).

Definition save (cls : ModelClass) (refresh : bool)
  : M (gmap string py * world E) unit :=
  on_self _add_created ;;;
  on_self _add_updated ;;;
  self <~ the_self ;;
  let op_type :=
    if negb (bool_decide (is_Some (self !! "id")))
    then "create"
    else "index" in
  res <~ in_world
    (conn_index (index (es cls)) (__type__ cls) self op_type refresh) ;;
  setitem "id" res.

End Model.

(** ** A scripted outside world

    For concrete runs: the state counts the operations performed so far,
    the client gives the scripted reply to each request, and the clock
    gives one timestamp per second. *)

Definition scripted_timestamp (n : nat) : string :=
  nth n ["2014-03-01T10:00:00+00:00"; "2014-03-01T10:00:01+00:00";
         "2014-03-01T10:00:02+00:00"; "2014-03-01T10:00:03+00:00"]
      "2014-03-01T10:00:04+00:00".

Definition scripted_client (create_reply put_mapping_reply : result unit)
    (get_reply : result hit) (index_reply : result py)
    (search_reply : result search_response) : Client nat := {|
  es_indices_create := λ _ n, (create_reply, S n);
  es_indices_put_mapping := λ _ _ _ n, (put_mapping_reply, S n);
  es_get := λ _ _ _ n, (get_reply, S n);
  es_index := λ _ _ _ _ _ n, (index_reply, S n);
  es_search := λ _ _ _ _ n, (search_reply, S n);
  utcnow_isoformat := λ n, (scripted_timestamp n, S n);
  time_strftime := λ _ n, ("2014-03-01", S n);
|}.

Definition no_hits : search_response :=
  {| hits_total := 0; hits_hits := [] |}.

(** A client all of whose requests succeed. *)
Definition ok_client : Client nat :=
  scripted_client (Ok tt) (Ok tt)
    (Ok {| hit_id := PStr "a1"; hit_source := {[ "text" := PStr "hello" ]} |})
    (Ok (PStr "a1")) (Ok no_hits).

Definition annotator_es : ElasticSearch :=
  {| host := "http://127.0.0.1:9200"; index := "annotator";
     authorization_enabled := false |}.

Definition Annotation : ModelClass :=
  {| es := annotator_es; __type__ := "annotation";
     __mapping__ := {[ "text" := PDict {[ "type" := PStr "string" ]} ]} |}.

Definition world0 : world nat := World 0%nat [] [].

(** The query specification [{'author': 'alice'}]. *)
Definition alice_query : gmap string py := {[ "author" := PStr "alice" ]}.

(** ** Notions used in the statements *)

Section Readings.
Context {E : Type} (client : Client E).
Implicit Types (cls : ModelClass) (w : world E) (self : gmap string py).

(** The state of the outside world when [save] stamps [updated]: the
    clock has been read once before if [created] was absent. *)
Definition env_after_created self w : E :=
  if bool_decide (self !! "created" = None)
  then (utcnow_isoformat client (w_env w)).2
  else w_env w.

(** The document as [save] sends it. *)
Definition stamped self w : gmap string py :=
  (_add_updated client (_add_created client self w).1
                       (_add_created client self w).2).1.

Definition save_op_type self : string :=
  if bool_decide (is_Some (self !! "id")) then "index" else "create".

(** The answers of the engine during [create_all]. *)
Definition create_reply cls w : result unit * E :=
  es_indices_create client (index (es cls)) (w_env w).

Definition put_mapping_reply cls w : result unit * E :=
  es_indices_put_mapping client (index (es cls)) (__type__ cls)
    (get_mapping cls) (create_reply cls w).2.

Definition reindex_date cls w : string :=
  (time_strftime client "%Y-%m-%d" (put_mapping_reply cls w).2).1.

(** The "already exists" condition of index creation. *)
Definition already_exists (e : exn) : bool :=
  match e with
  | RequestError error => index_exists_error error
  | _ => false
  end.

(** The merge conflict of a mapping. *)
Definition merge_conflict (e : exn) : bool :=
  match e with
  | RequestError error => String.prefix "MergeMappingException" error
  | _ => false
  end.

(** Index creation succeeded, or failed with "already exists". *)
Definition index_ensured (r : result unit) : Prop :=
  match r with
  | Ok _ => True
  | Raise e => already_exists e = true
  end.

End Readings.

(** Clients whose [put_mapping] fails: with a [RequestError] that is no
    merge conflict, with an error of the transport that is no
    [RequestError], and with a merge conflict on an index that exists
    already. *)
Definition bad_mapping_client : Client nat :=
  scripted_client (Ok tt)
    (Raise (RequestError
       "MapperParsingException[No handler for type [strng] declared on field [text]]"))
    (Raise (NotFoundError "")) (Ok (PStr "a1")) (Ok no_hits).

Definition unavailable_client : Client nat :=
  scripted_client (Ok tt)
    (Raise (TransportError 503
       "ClusterBlockException[blocked by: [SERVICE_UNAVAILABLE/1/state not recovered / initialized];]"))
    (Raise (NotFoundError "")) (Ok (PStr "a1")) (Ok no_hits).

Definition merge_conflict_error : exn :=
  RequestError
    "MergeMappingException[Merge failed with failures {[mapper [text] has different index values]}]".

Definition merge_conflict_client : Client nat :=
  scripted_client
    (Raise (RequestError
       "IndexAlreadyExistsException[[annotator] already exists]"))
    (Raise merge_conflict_error)
    (Raise (NotFoundError "")) (Ok (PStr "a1")) (Ok no_hits).

(** What [create_all] raises with that client on 1 March 2014. *)
Definition reindex_error : exn :=
  RuntimeError
    ("Elasticsearch index mapping is incorrect! Please reindex it. "
     +:+ "E.g. use annotator-store's reindex.py: $ python reindex.py "
     +:+ "--host http://127.0.0.1:9200 "
     +:+ "--alias annotator annotator annotator_2014-03-01")
    merge_conflict_error.

(** ** The rest of the module *)

(** *** The connection of the wrapper: [ElasticSearch._connect] and the
    [conn] property *)

(** What [urlparse] gives and [_connect] reads. *)
Record ParseResult : Type := {
  hostname : option string;
  username : option string;
  password : option string;
  port : option Z;
  path : string;
}.

Definition py_of_optional (o : option string) : py :=
  match o with
  | Some s => PStr s
  | None => PNone
  end.

(** The [connargs] dict of [_connect]; the pair of credentials is a
    [PList] of two strings, and [x or ''] is [default "" x]. *)
Definition connargs (parsed : ParseResult) : gmap string py :=
  let connargs := dict_display [("host", py_of_optional (hostname parsed))] in
  let connargs :=
    if bool_decide (username parsed ≠ None ∨ password parsed ≠ None)
    then <["http_auth" :=
             PList [PStr (default "" (username parsed));
                    PStr (default "" (password parsed))]]> connargs
    else connargs in
  let connargs :=
    match port parsed with
    | Some p => <["port" := PInt p]> connargs
    | None => connargs
    end in
  if bool_decide (path parsed ≠ "")
  then <["url_prefix" := PStr (path parsed)]> connargs
  else connargs.

(** The client object [elasticsearch.Elasticsearch(hosts=..., ...)], as
    what it is built from. *)
Record Connection : Type := { hosts : list (gmap string py) }.

(** The wrapper object: its settings, and [_connection] once it is set. *)
Record ESObject : Type := {
  settings : ElasticSearch;
  _connection : option Connection;
}.

(** [ElasticSearch.__init__] *)
Definition ElasticSearch_init (host index : option string)
    (authorization_enabled : option bool) : ESObject :=
  {| settings :=
       {| host := default "http://127.0.0.1:9200" host;
          index := default "annotator" index;
          authorization_enabled := default false authorization_enabled |};
     _connection := None |}.

(** An assignment to [self.host]. *)
Definition set_host (h : string) (o : ESObject) : ESObject :=
  {| settings :=
       {| host := h; index := index (settings o);
          authorization_enabled := authorization_enabled (settings o) |};
     _connection := _connection o |}.

Section Connect.
Variable urlparse : string → ParseResult.

Definition _connect (o : ESObject) : Connection :=
  {| hosts := [connargs (urlparse (host (settings o)))] |}.

(** The [conn] property: the connection and the object afterwards. *)
Definition conn (o : ESObject) : Connection * ESObject :=
  match _connection o with
  | Some c => (c, o)
  | None =>
      let c := _connect o in
      (c, {| settings := settings o; _connection := Some c |})
  end.

End Connect.

(** *** Dropping the index and deleting a document *)

Inductive admin_call : Type :=
  | call_indices_exists (index : string)
  | call_indices_close (index : string)
  | call_indices_delete (index : string)
  | call_delete (index doc_type : string) (id : py).

(** The operations of the client that [drop_all] and [delete] use. *)
Record AdminClient (E : Type) : Type := {
  es_indices_exists : string → E → result bool * E;
  es_indices_close : string → E → result unit * E;
  es_indices_delete : string → E → result unit * E;
  es_delete : string → string → py → E → result unit * E;
}.
Arguments es_indices_exists {E} _ _ _.
Arguments es_indices_close {E} _ _ _.
Arguments es_indices_delete {E} _ _ _.
Arguments es_delete {E} _ _ _ _ _.

Record admin_world (E : Type) : Type := AdminWorld {
  aw_env : E;
  aw_calls : list admin_call;
}.
Arguments AdminWorld {E} _ _.
Arguments aw_env {E} _.
Arguments aw_calls {E} _.

Section Admin.
Context {E : Type} (admin : AdminClient E).

Definition admin_request {A : Type} (c : admin_call)
    (f : E → result A * E) : M (admin_world E) A :=
  λ w, let '(r, e) := f (aw_env w) in (r, AdminWorld e (aw_calls w ++ [c])).

(** *** [_Model.drop_all] *)
Definition drop_all (cls : ModelClass) : M (admin_world E) unit :=
  found <~ admin_request (call_indices_exists (index (es cls)))
             (es_indices_exists admin (index (es cls))) ;;
  if (found : bool)
  then admin_request (call_indices_close (index (es cls)))
         (es_indices_close admin (index (es cls))) ;;;
       admin_request (call_indices_delete (index (es cls)))
         (es_indices_delete admin (index (es cls)))
  else ret tt.

(** *** [_Model.delete]: ['id' in self], then [self['id']] *)
Definition delete (cls : ModelClass) (self : gmap string py)
  : M (admin_world E) unit :=
  match self !! "id" with
  | Some id =>
      admin_request (call_delete (index (es cls)) (__type__ cls) id)
        (es_delete admin (index (es cls)) (__type__ cls) id)
  | None => ret tt
  end.

End Admin.

(** *** [_Model.count] *)

Section Count.
Context {E : Type} (client : Client E).

(** [res['hits']['total']]; [None] stands for the [TypeError] of Python
    when [res] is a list. *)
Definition hits_total_of (res : search_result) : option Z :=
  match res with
  | RawResponse r => Some (hits_total r)
  | Instances _ => None
  end.

(** The keyword arguments of [count] are [query], [offset], [limit] and
    [params]; an absent [params] is [None], a given one is a dict, and it
    is that dict of the caller which [update] changes: it is part of the
    state. *)
Definition count (cls : ModelClass) (query : option (gmap string py))
    (offset limit : option Z)
  : M (option (gmap string py) * world E) (option Z) :=
  λ s,
    let params := default ∅ s.1 in
    let params := <["search_type" := PStr "count"]> params in
    let given := (λ _, params) <$> s.1 in
    match search client cls query offset limit (Some params) true s.2 with
    | (Ok res, w) => (Ok (hits_total_of res), (given, w))
    | (Raise e, w) => (Raise e, (given, w))
    end.

End Count.

(** A scripted client for [drop_all] and [delete]. *)
Definition scripted_admin (exists_reply : result bool)
    (close_reply delete_index_reply delete_reply : result unit)
  : AdminClient nat := {|
  es_indices_exists := λ _ n, (exists_reply, S n);
  es_indices_close := λ _ n, (close_reply, S n);
  es_indices_delete := λ _ n, (delete_index_reply, S n);
  es_delete := λ _ _ _ n, (delete_reply, S n);
|}.

Definition admin_world0 : admin_world nat := AdminWorld 0%nat [].

(** Clients for searches: one that finds two documents, the second of
    which has a stale [id] in its source, and one that cannot connect. *)
Definition two_hits : search_response :=
  {| hits_total := 2;
     hits_hits :=
       [ {| hit_id := PStr "a1";
            hit_source := {[ "text" := PStr "hello" ]} |};
         {| hit_id := PStr "a2";
            hit_source :=
              {[ "text" := PStr "bye"; "id" := PStr "stale" ]} |} ] |}.

Definition hits_client : Client nat :=
  scripted_client (Ok tt) (Ok tt) (Raise (NotFoundError ""))
    (Ok (PStr "a1")) (Ok two_hits).

Definition down_client : Client nat :=
  scripted_client
    (Raise (ConnectionError "refused")) (Raise (ConnectionError "refused"))
    (Raise (ConnectionError "refused")) (Raise (ConnectionError "refused"))
    (Raise (ConnectionError "refused")).

(** A new document, and a client that answers [get] with what a save of
    that document in [world0] stores. *)
Definition hello_doc : gmap string py := {[ "text" := PStr "hello" ]}.

Definition stored_hello : hit :=
  {| hit_id := PStr "a1";
     hit_source :=
       {[ "text" := PStr "hello";
          "created" := PStr "2014-03-01T10:00:00+00:00";
          "updated" := PStr "2014-03-01T10:00:01+00:00" ]} |}.

Definition store_client : Client nat :=
  scripted_client (Ok tt) (Ok tt) (Ok stored_hello)
    (Ok (PStr "a1")) (Ok no_hits).

(** The document and the world after saving [hello_doc] in [world0]. *)
Definition hello_saved : gmap string py * world nat :=
  (save store_client Annotation true (hello_doc, world0)).2.

(** Clients for [drop_all] and [delete]: one with no index, and one whose
    document is gone. *)
Definition absent_admin : AdminClient nat :=
  scripted_admin (Ok false) (Ok tt) (Ok tt) (Ok tt).

Definition gone_admin : AdminClient nat :=
  scripted_admin (Ok true) (Ok tt) (Ok tt)
    (Raise (NotFoundError "DocumentMissingException"))%string.

(** * Properties *)

(** ** The query builder *)

Section QueryBuilder.
Implicit Types (query : gmap string py) (offset limit : Z).

(** The clauses under [query.bool.must] of a built request. *)
Lemma build_query_must query offset limit :
  request_must (_build_query query offset limit) =
    Some (if decide (length (match_clause <$> iteritems query) = 0%nat)
          then (match_clause <$> iteritems query) ++ [match_all_clause]
          else match_clause <$> iteritems query)%list.
Proof. reflexivity. Qed.

Lemma iteritems_length query : length (iteritems query) = size query.
Proof. unfold iteritems. apply length_map_to_list. Qed.

Lemma iteritems_nil query : iteritems query = [] ↔ query = ∅.
Proof. unfold iteritems. apply map_to_list_empty_iff. Qed.

Lemma build_query_must_nonempty query offset limit :
  query ≠ ∅ →
  request_must (_build_query query offset limit) =
    Some (match_clause <$> iteritems query).
Proof.
  intros Hne. rewrite build_query_must.
  destruct (decide _) as [Hlen|]; [|done].
  rewrite length_fmap in Hlen.
  apply nil_length_inv, iteritems_nil in Hlen. done.
Qed.

(** A match clause determines its field and its value. *)
Lemma match_clause_reads k v :
  py_getitem "match" (match_clause (k, v)) ≫= py_getitem k = Some v.
Proof.
  unfold match_clause, dict_display; simpl.
  rewrite lookup_insert_eq; simpl. apply lookup_insert_eq.
Qed.

#[local] Instance match_clause_inj : Inj (=) (=) match_clause.
Proof.
  intros [k1 v1] [k2 v2] Heq.
  assert (Hread :
    py_getitem "match" (match_clause (k2, v2)) ≫= py_getitem k1 = Some v1).
  { rewrite <- Heq. apply match_clause_reads. }
  unfold match_clause, dict_display in Hread; simpl in Hread.
  rewrite lookup_insert_eq in Hread; simpl in Hread.
  destruct (decide (k2 = k1)) as [->|Hk].
  - rewrite lookup_insert_eq in Hread. congruence.
  - rewrite lookup_insert_ne, lookup_empty in Hread by done. done.
Qed.

Lemma match_clause_not_match_all kv : match_clause kv ≠ match_all_clause.
Proof.
  intros Heq.
  assert (Hread : py_getitem "match_all" (match_clause kv)
                  = py_getitem "match_all" match_all_clause)
    by (by rewrite Heq).
  unfold match_clause, match_all_clause, dict_display in Hread.
  simpl in Hread.
  rewrite lookup_insert_ne, lookup_empty, lookup_insert_eq in Hread by done.
  done.
Qed.

End QueryBuilder.

Section QueryBuilderClaims.
Implicit Types (query : gmap string py) (offset limit : Z).

#[local] Existing Instance match_clause_inj.

(** C1: for the empty query specification the only clause under the
    boolean [must] list is [{'match_all': {}}], through the module function
    and through the class method (where an absent query is the empty one);
    and no built request carries an empty [must] list. *)
Theorem empty_query_is_match_all offset limit :
  request_must (_build_query ∅ offset limit) = Some [match_all_clause]
  ∧ (∀ o l, request_must (_Model_build_query (Some ∅) o l)
            = Some [match_all_clause])
  ∧ (∀ o l, request_must (_Model_build_query None o l)
            = Some [match_all_clause])
  ∧ py_getitem "match_all" match_all_clause = Some (PDict ∅)
  ∧ (∀ query, request_must (_build_query query offset limit) ≠ Some []).
Proof.
  split_and!; try reflexivity.
  intros query. rewrite build_query_must.
  destruct (decide _) as [Hlen|Hlen].
  - intros [=Heq]. by apply app_nil in Heq as [_ ?].
  - intros [=Heq]. by rewrite Heq in Hlen.
Qed.

(** C2: [from] is [max(0, offset)] and [size] is
    [min(200, max(0, limit))]; the class method puts 0 for an absent offset
    and 20 for an absent limit first, so that they give [from] 0 and
    [size] 20. *)
Theorem pagination_bounds query offset limit :
  _build_query query offset limit !! "from" = Some (PInt (Z.max 0 offset))
  ∧ _build_query query offset limit !! "size"
    = Some (PInt (Z.min 200 (Z.max 0 limit)))
  ∧ (∀ q o l,
      _Model_build_query q o l !! "from"
        = Some (PInt (Z.max 0 (default 0 o)))
      ∧ _Model_build_query q o l !! "size"
        = Some (PInt (Z.min 200 (Z.max 0 (default 20 l)))))
  ∧ (∀ q o, _Model_build_query q o None !! "size" = Some (PInt 20))
  ∧ (∀ q l, _Model_build_query q None l !! "from" = Some (PInt 0)).
Proof.
  split_and!; try reflexivity.
  intros q [o|] [l|]; split; reflexivity.
Qed.

(** C8: for a non-empty query specification the [must] list holds the
    match clauses of its field/value pairs and nothing else: one clause
    [{'match': {k: v}}] for each pair, no clause twice, as many clauses as
    pairs, and no [match_all] clause. *)
Theorem nonempty_query_match_clauses query offset limit :
  query ≠ ∅ →
  ∃ clauses : list py,
    request_must (_build_query query offset limit) = Some clauses
    ∧ clauses ≡ₚ match_clause <$> map_to_list query
    ∧ length clauses = size query
    ∧ NoDup clauses
    ∧ (∀ k v, match_clause (k, v) ∈ clauses ↔ query !! k = Some v)
    ∧ (∀ c, c ∈ clauses →
         ∃ k v, c = match_clause (k, v) ∧ query !! k = Some v
                ∧ py_getitem "match" c ≫= py_getitem k = Some v)
    ∧ match_all_clause ∉ clauses.
Proof.
  intros Hne. exists (match_clause <$> iteritems query).
  split_and!.
  - by apply build_query_must_nonempty.
  - done.
  - by rewrite length_fmap, iteritems_length.
  - apply NoDup_fmap_2; [apply _|]. apply NoDup_map_to_list.
  - intros k v. rewrite list_elem_of_fmap_inj by apply _.
    apply elem_of_map_to_list.
  - intros c [[k v] [-> Hin]]%list_elem_of_fmap.
    exists k, v. split_and!; [done| |apply match_clause_reads].
    by apply elem_of_map_to_list.
  - intros [kv [Heq _]]%list_elem_of_fmap.
    by apply (match_clause_not_match_all kv).
Qed.

(** C9: every built request sorts by one instruction, on [updated], with
    [order] [desc] and [ignore_unmapped] true. *)
Theorem sort_updated_desc_ignore_unmapped query offset limit :
  ∃ instr spec : py,
    request_sort (_build_query query offset limit) = Some [instr]
    ∧ instr = PDict {[ "updated" := spec ]}
    ∧ py_getitem "order" spec = Some (PStr "desc")
    ∧ py_getitem "ignore_unmapped" spec = Some (PBool true)
    ∧ (∀ q o l, request_sort (_Model_build_query q o l) = Some [instr]).
Proof.
  eexists _, _. split_and!; try reflexivity.
Qed.

End QueryBuilderClaims.

(** C8 at the query [{'author': 'alice'}], offset 0 and limit 1. *)
Lemma nonempty_query_match_clauses_witness :
  alice_query ≠ ∅
  ∧ ∃ clauses : list py,
      request_must (_build_query alice_query 0 1) = Some clauses
      ∧ clauses ≡ₚ match_clause <$> map_to_list alice_query
      ∧ length clauses = size alice_query
      ∧ NoDup clauses
      ∧ (∀ k v, match_clause (k, v) ∈ clauses ↔ alice_query !! k = Some v)
      ∧ (∀ c, c ∈ clauses →
           ∃ k v, c = match_clause (k, v) ∧ alice_query !! k = Some v
                  ∧ py_getitem "match" c ≫= py_getitem k = Some v)
      ∧ match_all_clause ∉ clauses.
Proof.
  split.
  - apply map_non_empty_singleton.
  - apply (nonempty_query_match_clauses alice_query 0 1).
    apply map_non_empty_singleton.
Defined.

(** The request built for that query. *)
Example build_query_alice :
  request_must (_build_query alice_query 0 1)
    = Some [PDict {[ "match" := PDict {[ "author" := PStr "alice" ]} ]}]
  ∧ _build_query alice_query (-5) 1000 !! "from" = Some (PInt 0)
  ∧ _build_query alice_query (-5) 1000 !! "size" = Some (PInt 200).
Proof. split_and!; reflexivity. Qed.

(** ** Searching *)

Section Search.
Context {E : Type} (client : Client E).
Implicit Types (cls : ModelClass) (w : world E).

Lemma build_query_dom query offset limit :
  dom (_build_query query offset limit)
  = ({[ "sort"; "from"; "size"; "query" ]} : gset string).
Proof.
  unfold _build_query, dict_display; simpl.
  rewrite !dom_insert_L, dom_empty_L. set_solver.
Qed.

Lemma build_query_truthy query offset limit :
  dict_truthy (_build_query query offset limit) = true.
Proof.
  apply bool_decide_eq_true. unfold _build_query, dict_display; simpl.
  apply insert_non_empty.
Qed.

(** C10: a built request has exactly the keys [sort], [from], [size] and
    [query], so it is never empty and never false; [search] therefore never
    returns its empty list without a request: it is [search_raw] on the
    built request, and it sends that request to the engine. *)
Theorem search_always_delegates cls (query : option (gmap string py))
    (offset limit : option Z) (params : option (gmap string py))
    (raw_result : bool) w :
  dom (_Model_build_query query offset limit)
    = ({[ "sort"; "from"; "size"; "query" ]} : gset string)
  ∧ _Model_build_query query offset limit ≠ ∅
  ∧ dict_truthy (_Model_build_query query offset limit) = true
  ∧ search client cls query offset limit params raw_result w
    = search_raw client cls
        (Some (_Model_build_query query offset limit)) params raw_result w
  ∧ w_calls (search client cls query offset limit params raw_result w).2
    = w_calls w ++
        [call_search (index (es cls)) (__type__ cls)
           (_Model_build_query query offset limit) (default ∅ params)].
Proof.
  assert (Htruthy :
    dict_truthy (_Model_build_query query offset limit) = true)
    by apply build_query_truthy.
  assert (Hsearch :
    search client cls query offset limit params raw_result w
    = search_raw client cls
        (Some (_Model_build_query query offset limit)) params raw_result w).
  { unfold search. by rewrite Htruthy. }
  split_and!.
  - apply build_query_dom.
  - by apply bool_decide_eq_true in Htruthy.
  - done.
  - done.
  - rewrite Hsearch. unfold search_raw, conn_search, request, bind.
    destruct params as [p|]; simpl;
      destruct (es_search _ _ _ _ _ _) as [[res|e] env']; simpl;
      try destruct raw_result; reflexivity.
Qed.

End Search.

(** ** Fetching *)

Section Fetch.
Context {E : Type} (client : Client E).
Implicit Types (cls : ModelClass) (w : world E).

(** C7: [fetch] returns [None] exactly when the engine answers the [get]
    request with [NotFoundError]; on a document it returns the instance
    made of the document's [_source] with the requested id under [id]; any
    other exception of the engine leaves [fetch] as it is. *)
Theorem fetch_none_iff_not_found cls (id : py) w :
  ((fetch client cls id w).1 = Ok None
   ↔ ∃ error,
       (es_get client (index (es cls)) (__type__ cls) id (w_env w)).1
       = Raise (NotFoundError error))
  ∧ (∀ doc,
       (es_get client (index (es cls)) (__type__ cls) id (w_env w)).1
       = Ok doc →
       (fetch client cls id w).1 = Ok (Some (<["id" := id]> (hit_source doc)))
       ∧ (<["id" := id]> (hit_source doc) : gmap string py) !! "id" = Some id)
  ∧ (∀ e,
       (es_get client (index (es cls)) (__type__ cls) id (w_env w)).1
       = Raise e →
       (∀ error, e ≠ NotFoundError error) →
       (fetch client cls id w).1 = Raise e)
  ∧ w_calls (fetch client cls id w).2
    = w_calls w ++ [call_get (index (es cls)) (__type__ cls) id].
Proof.
  unfold fetch, bind, try_except, conn_get, request, ret, raise, new_instance.
  destruct (es_get _ _ _ _ _) as [[doc|e] env']; simpl.
  - split_and!; try done.
    + split; [done|]. by intros [? ?].
    + intros ? [= <-]. split; [done|]. apply lookup_insert_eq.
  - destruct e; simpl; split_and!; try done;
      try (split; [done|by intros [? ?]]);
      try (by intros ? [= <-] ?).
    + split; eauto.
    + intros ? [= <-] Hne. by destruct (Hne error).
Qed.

End Fetch.

(** ** Saving *)

Section Save.
Context {E : Type} (client : Client E).
Implicit Types (cls : ModelClass) (w : world E) (self : gmap string py).

Lemma add_updated_run (ann : gmap string py) w :
  _add_updated client ann w =
    (<["updated" := PStr (utcnow_isoformat client (w_env w)).1]> ann,
     World (utcnow_isoformat client (w_env w)).2 (w_log w) (w_calls w)).
Proof.
  unfold _add_updated, read_clock.
  by destruct (utcnow_isoformat client (w_env w)).
Qed.

Lemma add_created_run self w :
  _add_created client self w =
    (if bool_decide (self !! "created" = None)
     then <["created" := PStr (utcnow_isoformat client (w_env w)).1]> self
     else self,
     World (env_after_created client self w) (w_log w) (w_calls w)).
Proof.
  unfold _add_created, env_after_created, read_clock.
  case_bool_decide.
  - by destruct (utcnow_isoformat client (w_env w)).
  - by destruct w.
Qed.

Lemma add_created_lookup self w k :
  (_add_created client self w).1 !! k =
    if decide (k = "created")
    then match self !! "created" with
         | Some c => Some c
         | None => Some (PStr (utcnow_isoformat client (w_env w)).1)
         end
    else self !! k.
Proof.
  rewrite add_created_run; simpl.
  case_bool_decide as Hc.
  - destruct (decide (k = "created")) as [->|Hk].
    + by rewrite lookup_insert_eq, Hc.
    + by rewrite lookup_insert_ne.
  - destruct (decide (k = "created")) as [->|Hk]; [|done].
    by destruct (self !! "created").
Qed.

Lemma stamped_lookup self w k :
  stamped client self w !! k =
    if decide (k = "updated")
    then Some (PStr
           (utcnow_isoformat client (env_after_created client self w)).1)
    else (_add_created client self w).1 !! k.
Proof.
  unfold stamped. rewrite add_updated_run; simpl.
  rewrite (add_created_run self w) at 1; simpl.
  destruct (decide (k = "updated")) as [->|Hk].
  - by rewrite lookup_insert_eq.
  - by rewrite lookup_insert_ne.
Qed.

(** [save], step by step. *)
Lemma save_run cls refresh self w :
  save client cls refresh (self, w) =
    let env := (utcnow_isoformat client (env_after_created client self w)).2 in
    let body := stamped client self w in
    let reply :=
      es_index client (index (es cls)) (__type__ cls) body
        (save_op_type self) refresh env in
    let w' :=
      World reply.2 (w_log w)
        (w_calls w ++ [call_index (index (es cls)) (__type__ cls) body
                         (save_op_type self) refresh]) in
    match reply.1 with
    | Ok res => (Ok tt, (<["id" := res]> body, w'))
    | Raise e => (Raise e, (body, w'))
    end.
Proof.
  assert (Hid : stamped client self w !! "id" = self !! "id").
  { rewrite stamped_lookup, add_created_lookup.
    by repeat (destruct (decide _); [done|]). }
  assert (Hop : (if negb (bool_decide (is_Some (self !! "id")))
                 then "create" else "index") = save_op_type self).
  { unfold save_op_type. by case_bool_decide. }
  unfold save, bind, on_self, the_self, in_world, setitem, conn_index,
    request; simpl.
  fold (stamped client self w). rewrite Hid, Hop.
  rewrite (add_updated_run _ (_add_created client self w).2).
  rewrite (add_created_run self w); simpl.
  destruct (es_index _ _ _ _ _ _ _) as [[res|ex] env']; reflexivity.
Qed.

(** C3: [save] sends one [index] request, whose body is the document with
    its stamps: [created] keeps its value if the document had one and is
    the time of the clock otherwise, [updated] is always the time read
    next, every other field is untouched; [op_type] is [create] exactly
    when the document has no [id] and [index] exactly when it has one; on
    success the [_id] of the reply is stored under [id] of the document,
    and on an exception the stamped document is left without that change. *)
Theorem save_stamps_then_writes cls (refresh : bool) self w :
  ∃ (body : gmap string py) (op_type : string) (env : E),
    w_calls (save client cls refresh (self, w)).2.2
      = w_calls w ++
          [call_index (index (es cls)) (__type__ cls) body op_type refresh]
    ∧ (∀ c, self !! "created" = Some c → body !! "created" = Some c)
    ∧ (self !! "created" = None →
         body !! "created"
         = Some (PStr (utcnow_isoformat client (w_env w)).1))
    ∧ body !! "updated"
      = Some (PStr
          (utcnow_isoformat client (env_after_created client self w)).1)
    ∧ (∀ k, k ≠ "created" → k ≠ "updated" → body !! k = self !! k)
    ∧ (op_type = "create" ↔ self !! "id" = None)
    ∧ (op_type = "index" ↔ is_Some (self !! "id"))
    ∧ env = (utcnow_isoformat client (env_after_created client self w)).2
    ∧ (∀ res,
         (es_index client (index (es cls)) (__type__ cls) body op_type
            refresh env).1 = Ok res →
         (save client cls refresh (self, w)).1 = Ok tt
         ∧ (save client cls refresh (self, w)).2.1 = <["id" := res]> body
         ∧ (save client cls refresh (self, w)).2.1 !! "id" = Some res)
    ∧ (∀ e,
         (es_index client (index (es cls)) (__type__ cls) body op_type
            refresh env).1 = Raise e →
         (save client cls refresh (self, w)).1 = Raise e
         ∧ (save client cls refresh (self, w)).2.1 = body).
Proof.
  exists (stamped client self w), (save_op_type self),
    (utcnow_isoformat client (env_after_created client self w)).2.
  rewrite save_run; simpl.
  split_and!.
  - by destruct (es_index _ _ _ _ _ _ _).1.
  - intros c Hc. rewrite stamped_lookup, add_created_lookup; simpl.
    by rewrite Hc.
  - intros Hc. rewrite stamped_lookup, add_created_lookup; simpl.
    by rewrite Hc.
  - by rewrite stamped_lookup.
  - intros k Hk1 Hk2. rewrite stamped_lookup, add_created_lookup.
    by rewrite !decide_False.
  - unfold save_op_type. case_bool_decide as Hid.
    + split; [done|]. intros Hnone. rewrite Hnone in Hid.
      by destruct Hid.
    + split; [|done]. intros _. by apply eq_None_not_Some.
  - unfold save_op_type. case_bool_decide as Hid; split; done.
  - done.
  - intros res ->. split_and!; [done..|]. apply lookup_insert_eq.
  - by intros e ->.
Qed.

(** C4, as the code has it: the body [save] sends is the document itself,
    so it carries [id] with the document's value whenever the document has
    one (and no [id] otherwise), and the request has no identifier beside
    that body; what keeps [id] out of the stored source and makes it the
    identifier of the document is the mapping of [get_mapping], whose entry
    for the type has [_source] [{'excludes': ['id']}] and [_id]
    [{'path': 'id'}]. *)
Theorem save_body_carries_id cls (refresh : bool) self w :
  (∃ (body : gmap string py) (op_type : string),
     w_calls (save client cls refresh (self, w)).2.2
       = w_calls w ++
           [call_index (index (es cls)) (__type__ cls) body op_type refresh]
     ∧ body !! "id" = self !! "id")
  ∧ (∃ directives : py,
       get_mapping cls !! __type__ cls = Some directives
       ∧ py_getitem "_source" directives ≫= py_getitem "excludes"
         = Some (PList [PStr "id"])
       ∧ py_getitem "_id" directives ≫= py_getitem "path"
         = Some (PStr "id")).
Proof.
  split.
  - exists (stamped client self w), (save_op_type self).
    rewrite save_run; simpl. split.
    + by destruct (es_index _ _ _ _ _ _ _).1.
    + rewrite stamped_lookup, add_created_lookup.
      by rewrite !decide_False.
  - eexists. split.
    + unfold get_mapping, dict_display; simpl. apply lookup_insert_eq.
    + split; reflexivity.
Qed.

End Save.

(** C4 fails as stated: saving the document [{'id': 'a1', 'text': 'hello'}]
    sends a body that holds [id] with the value ['a1']. *)
Lemma save_body_holds_id_example :
  ¬ (∀ idx doc_type body op_type refresh,
       call_index idx doc_type body op_type refresh
         ∈ w_calls (save ok_client Annotation true
                      ({[ "id" := PStr "a1"; "text" := PStr "hello" ]},
                       world0)).2.2 →
       body !! "id" = None).
Proof.
  intros Hclaim.
  specialize (Hclaim "annotator" "annotation"
    (stamped ok_client {[ "id" := PStr "a1"; "text" := PStr "hello" ]} world0)
    "index" true).
  rewrite save_run in Hclaim; simpl in Hclaim.
  assert (Hid : stamped ok_client
            {[ "id" := PStr "a1"; "text" := PStr "hello" ]} world0 !! "id"
          = Some (PStr "a1")) by reflexivity.
  rewrite Hid in Hclaim. discriminate Hclaim.
  apply list_elem_of_here.
Qed.

(** ** Creating the index and its mapping *)

Lemma string_app_empty_r (s : string) : s +:+ "" = s.
Proof.
  induction s as [|c s IH]; [done|].
  change (String c (s +:+ "") = String c s). by rewrite IH.
Qed.

(** The text of the reindex advice. *)
Lemma reindex_message (h idx date : string) :
  str_format reindex_template [h; idx; date] =
    "Elasticsearch index mapping is incorrect! Please reindex it. "
    +:+ "E.g. use annotator-store's reindex.py: $ python reindex.py --host "
    +:+ h +:+ " --alias " +:+ idx +:+ " " +:+ idx +:+ " "
    +:+ idx +:+ "_" +:+ date.
Proof.
  unfold reindex_template; simpl. by rewrite string_app_empty_r.
Qed.

Section CreateAll.
Context {E : Type} (client : Client E).
Implicit Types (cls : ModelClass) (w : world E).

Lemma create_all_index_error cls w e :
  (create_reply client cls w).1 = Raise e → already_exists e = false →
  (create_all client cls w).1 = Raise e.
Proof.
  unfold create_reply, create_all, bind, try_except, log,
    conn_indices_create, request; simpl.
  destruct (es_indices_create _ _ _) as [[[]|e1] env1]; simpl; [done|].
  intros [= ->] Hex. destruct e; simpl in *; try done.
  by rewrite Hex.
Qed.

Lemma create_all_after_index cls w :
  index_ensured (create_reply client cls w).1 →
  (create_all client cls w).1 =
    match (put_mapping_reply client cls w).1 with
    | Ok _ => Ok tt
    | Raise e =>
        if is_RequestError e
        then if merge_conflict e
             then Raise (RuntimeError
                    (str_format reindex_template
                       [host (es cls); index (es cls);
                        reindex_date client cls w])
                    e)
             else Ok tt
        else Raise e
    end.
Proof.
  unfold reindex_date, put_mapping_reply, create_reply, create_all, bind,
    try_except, log, conn_indices_create, conn_indices_put_mapping, request,
    clock, read_clock, raise, ret; simpl.
  destruct (es_indices_create _ _ _) as [[[]|e1] env1]; simpl.
  - intros _.
    destruct (es_indices_put_mapping _ _ _ _ _) as [[[]|e2] env2]; simpl;
      [done|].
    destruct e2; simpl; try done.
    destruct (String.prefix _ _); simpl; [|done].
    by destruct (time_strftime _ _ _).
  - intros Hex. destruct e1; simpl in Hex; try done.
    rewrite Hex; simpl.
    destruct (es_indices_put_mapping _ _ _ _ _) as [[[]|e2] env2]; simpl;
      [done|].
    destruct e2; simpl; try done.
    destruct (String.prefix _ _); simpl; [|done].
    by destruct (time_strftime _ _ _).
Qed.

Lemma create_all_warns cls w e1 :
  (create_reply client cls w).1 = Raise e1 → already_exists e1 = true →
  (WARN, "Index creation failed as index appears to already exist.")
    ∈ w_log (create_all client cls w).2.
Proof.
  unfold create_reply, create_all, bind, try_except, log,
    conn_indices_create, conn_indices_put_mapping, request, clock,
    read_clock, raise, ret; simpl.
  destruct (es_indices_create _ _ _) as [[[]|e0] env1]; simpl; [done|].
  intros [= ->] Hex. destruct e1; simpl in Hex; try done.
  rewrite Hex; simpl.
  destruct (es_indices_put_mapping _ _ _ _ _) as [[[]|e2] env2]; simpl.
  - set_solver.
  - destruct e2; simpl; try set_solver.
    destruct (String.prefix _ _); simpl; [|set_solver].
    destruct (time_strftime _ _ _); simpl. set_solver.
Qed.

(** C6, as the code has it.  Leaving aside the runs where the engine
    answers [put_mapping] with a [RequestError] that is no merge conflict,
    [create_all] raises [e] exactly when (1) index creation raised [e] and
    [e] is no "already exists" condition, or (2) the index was ensured and
    [put_mapping] raised a merge conflict, [e] being the [RuntimeError]
    whose message gives the host, the index and the name [<index>_<date>],
    the date being the [%Y-%m-%d] time of the clock, or (3) the index was
    ensured and [put_mapping] raised [e], which is no [RequestError].  An
    "already exists" condition is logged as a warning. *)
Theorem create_all_raises_iff cls w e :
  (index_ensured (create_reply client cls w).1 →
   ∀ e2, (put_mapping_reply client cls w).1 = Raise e2 →
         is_RequestError e2 = true → merge_conflict e2 = true) →
  ((create_all client cls w).1 = Raise e
   ↔ ((create_reply client cls w).1 = Raise e ∧ already_exists e = false)
     ∨ (index_ensured (create_reply client cls w).1
        ∧ ∃ e2, (put_mapping_reply client cls w).1 = Raise e2
                ∧ merge_conflict e2 = true
                ∧ e = RuntimeError
                    ("Elasticsearch index mapping is incorrect! "
                     +:+ "Please reindex it. E.g. use annotator-store's "
                     +:+ "reindex.py: $ python reindex.py --host "
                     +:+ host (es cls) +:+ " --alias "
                     +:+ index (es cls) +:+ " " +:+ index (es cls) +:+ " "
                     +:+ index (es cls) +:+ "_" +:+ reindex_date client cls w)
                    e2)
     ∨ (index_ensured (create_reply client cls w).1
        ∧ (put_mapping_reply client cls w).1 = Raise e
        ∧ is_RequestError e = false))
  ∧ (∀ e1, (create_reply client cls w).1 = Raise e1 →
       already_exists e1 = true →
       (WARN, "Index creation failed as index appears to already exist.")
         ∈ w_log (create_all client cls w).2).
Proof.
  intros Hput. split; [|apply create_all_warns].
  destruct (create_reply client cls w).1 as [[]|e1] eqn:Hcreate.
  - (* the index was created *)
    specialize (Hput I).
    rewrite create_all_after_index by (by rewrite Hcreate).
    rewrite reindex_message.
    destruct (put_mapping_reply client cls w).1 as [[]|e2] eqn:Hmap.
    + split; [done|]. intros [[? _]|[(_ & ? & ? & _)|(_ & ? & _)]]; done.
    + destruct (is_RequestError e2) eqn:Hreq.
      * rewrite (Hput e2 eq_refl Hreq). split.
        -- intros [= <-]. right; left. split; [done|]. eauto.
        -- intros [[? _]|[(_ & e' & [= <-] & _ & ->)|(_ & [= <-] & ?)]];
             [done|done|congruence].
      * split.
        -- intros [= <-]. right; right. done.
        -- intros [[? _]|[(_ & e' & [= <-] & Hm & _)|(_ & [= <-] & _)]];
             [done| |done].
           destruct e2; simpl in *; done.
  - destruct (already_exists e1) eqn:Hex.
    + (* the index exists already *)
      specialize (Hput Hex).
      rewrite create_all_after_index by (by rewrite Hcreate).
      rewrite reindex_message.
      destruct (put_mapping_reply client cls w).1 as [[]|e2] eqn:Hmap.
      * split; [done|].
        intros [[[= <-] ?]|[(_ & ? & ? & _)|(_ & ? & _)]]; congruence.
      * destruct (is_RequestError e2) eqn:Hreq.
        -- rewrite (Hput e2 eq_refl Hreq). split.
           ++ intros [= <-]. right; left. split; [done|]. eauto.
           ++ intros [[[= <-] ?]|[(_ & e' & [= <-] & _ & ->)|(_ & [= <-] & ?)]];
                [congruence|done|congruence].
        -- split.
           ++ intros [= <-]. right; right. done.
           ++ intros [[[= <-] ?]|[(_ & e' & [= <-] & Hm & _)|(_ & [= <-] & _)]];
                [congruence| |done].
              destruct e2; simpl in *; done.
    + (* index creation failed *)
      rewrite (create_all_index_error cls w e1) by done.
      split.
      * intros [= <-]. by left.
      * intros [[[= <-] _]|[(Hens & _)|(Hens & _)]]; [done| |];
          simpl in Hens; congruence.
Qed.

End CreateAll.

(** A merge conflict on an index that exists already: the warning, then
    the reindex advice. *)
Example create_all_merge_conflict_run :
  (create_all merge_conflict_client Annotation world0).1 = Raise reindex_error
  ∧ w_log (create_all merge_conflict_client Annotation world0).2
    = [(INFO, "Creating index 'annotator'.");
       (WARN, "Index creation failed as index appears to already exist.")].
Proof. split; reflexivity. Qed.

(** C6 (amended) at that run. *)
Lemma create_all_raises_iff_witness :
  (index_ensured (create_reply merge_conflict_client Annotation world0).1 →
   ∀ e2, (put_mapping_reply merge_conflict_client Annotation world0).1
         = Raise e2 →
         is_RequestError e2 = true → merge_conflict e2 = true)
  ∧ (((create_all merge_conflict_client Annotation world0).1
      = Raise reindex_error
      ↔ ((create_reply merge_conflict_client Annotation world0).1
         = Raise reindex_error
         ∧ already_exists reindex_error = false)
        ∨ (index_ensured
             (create_reply merge_conflict_client Annotation world0).1
           ∧ ∃ e2, (put_mapping_reply merge_conflict_client Annotation
                      world0).1 = Raise e2
                   ∧ merge_conflict e2 = true
                   ∧ reindex_error = RuntimeError
                       ("Elasticsearch index mapping is incorrect! "
                        +:+ "Please reindex it. E.g. use annotator-store's "
                        +:+ "reindex.py: $ python reindex.py --host "
                        +:+ host (es Annotation) +:+ " --alias "
                        +:+ index (es Annotation) +:+ " "
                        +:+ index (es Annotation) +:+ " "
                        +:+ index (es Annotation) +:+ "_"
                        +:+ reindex_date merge_conflict_client Annotation
                              world0)
                       e2)
        ∨ (index_ensured
             (create_reply merge_conflict_client Annotation world0).1
           ∧ (put_mapping_reply merge_conflict_client Annotation world0).1
             = Raise reindex_error
           ∧ is_RequestError reindex_error = false))
     ∧ (∀ e1, (create_reply merge_conflict_client Annotation world0).1
              = Raise e1 →
          already_exists e1 = true →
          (WARN, "Index creation failed as index appears to already exist.")
            ∈ w_log (create_all merge_conflict_client Annotation world0).2)).
Proof.
  assert (Hput :
    index_ensured (create_reply merge_conflict_client Annotation world0).1 →
    ∀ e2, (put_mapping_reply merge_conflict_client Annotation world0).1
          = Raise e2 →
          is_RequestError e2 = true → merge_conflict e2 = true).
  { intros _ e2 He _. vm_compute in He. injection He as <-. reflexivity. }
  split; [exact Hput|].
  exact (create_all_raises_iff merge_conflict_client Annotation world0
           reindex_error Hput).
Defined.

(** C6 fails as stated: here the index is created and [put_mapping] fails
    with a 503 of the transport, which is no merge conflict; [create_all]
    raises all the same. *)
Lemma create_all_raises_otherwise_example :
  ¬ ((∃ e, (create_all unavailable_client Annotation world0).1 = Raise e)
     ↔ (∃ e, (create_reply unavailable_client Annotation world0).1 = Raise e
             ∧ already_exists e = false)
       ∨ (∃ e, (put_mapping_reply unavailable_client Annotation world0).1
               = Raise e
               ∧ merge_conflict e = true)).
Proof.
  intros [Hraises _].
  destruct Hraises as [[e [He _]]|[e [He Hm]]].
  - eexists. reflexivity.
  - discriminate He.
  - vm_compute in He. injection He as <-. discriminate Hm.
Qed.

(** C5 fails on the code: here [put_mapping] fails with a [RequestError]
    that is no merge conflict, and [create_all] returns as if nothing had
    happened, with nothing in the log but the opening record. *)
Theorem create_all_absorbs_request_error :
  (put_mapping_reply bad_mapping_client Annotation world0).1
    = Raise (RequestError
        "MapperParsingException[No handler for type [strng] declared on field [text]]")
  ∧ (create_all bad_mapping_client Annotation world0).1 = Ok tt
  ∧ w_log (create_all bad_mapping_client Annotation world0).2
    = [(INFO, "Creating index 'annotator'.")].
Proof. split_and!; reflexivity. Qed.

(** * Further properties *)

(** ** The query builder *)

Section QueryBuilderMore.
Implicit Types (query : gmap string py) (offset limit : Z).

#[local] Existing Instance match_clause_inj.

(** X1: whatever the offset and the limit, [from] is a number that is not
    negative and not below the offset, and [size] is a number between 0
    and 200. *)
Theorem build_query_bounds query offset limit :
  ∃ f s : Z,
    _build_query query offset limit !! "from" = Some (PInt f)
    ∧ _build_query query offset limit !! "size" = Some (PInt s)
    ∧ 0 ≤ f ∧ offset ≤ f
    ∧ 0 ≤ s ≤ 200 ∧ (0 ≤ limit → s ≤ limit).
Proof.
  exists (Z.max 0 offset), (Z.min RESULTS_MAX_SIZE (Z.max 0 limit)).
  unfold RESULTS_MAX_SIZE. split_and!; try reflexivity; lia.
Qed.

(** X2: the offset goes through unchanged exactly when it is not negative,
    and the limit exactly when it is between 0 and 200. *)
Theorem build_query_passes_in_range query offset limit :
  (_build_query query offset limit !! "from" = Some (PInt offset)
   ↔ 0 ≤ offset)
  ∧ (_build_query query offset limit !! "size" = Some (PInt limit)
     ↔ 0 ≤ limit ≤ 200).
Proof.
  assert (Hfrom : _build_query query offset limit !! "from"
                  = Some (PInt (Z.max 0 offset))) by reflexivity.
  assert (Hsize : _build_query query offset limit !! "size"
                  = Some (PInt (Z.min 200 (Z.max 0 limit)))) by reflexivity.
  rewrite Hfrom, Hsize. split; split.
  - intros [= Heq]. lia.
  - intros ?. do 2 f_equal. lia.
  - intros [= Heq]. lia.
  - intros ?. do 2 f_equal. lia.
Qed.

Lemma must_of_query query offset limit :
  request_must (_build_query query offset limit) =
    Some (if decide (query = ∅) then [match_all_clause]
          else match_clause <$> iteritems query).
Proof.
  destruct (decide (query = ∅)) as [->|Hne].
  - reflexivity.
  - by apply build_query_must_nonempty.
Qed.

(** X3: a built request determines the query specification it was built
    from (and the clamped offset and limit): two requests are equal only
    if the specifications are. *)
Theorem build_query_determines_query query1 query2 offset1 offset2
    limit1 limit2 :
  _build_query query1 offset1 limit1 = _build_query query2 offset2 limit2 →
  query1 = query2
  ∧ Z.max 0 offset1 = Z.max 0 offset2
  ∧ Z.min 200 (Z.max 0 limit1) = Z.min 200 (Z.max 0 limit2).
Proof.
  intros Heq.
  assert (Hmust : request_must (_build_query query1 offset1 limit1)
                  = request_must (_build_query query2 offset2 limit2))
    by (by rewrite Heq).
  assert (Hfrom : _build_query query1 offset1 limit1 !! "from"
                  = _build_query query2 offset2 limit2 !! "from")
    by (by rewrite Heq).
  assert (Hsize : _build_query query1 offset1 limit1 !! "size"
                  = _build_query query2 offset2 limit2 !! "size")
    by (by rewrite Heq).
  split_and!.
  - rewrite !must_of_query in Hmust. injection Hmust as Hmust.
    destruct (decide (query1 = ∅)) as [->|Hne1],
             (decide (query2 = ∅)) as [->|Hne2]; [done| | |].
    + exfalso. apply (match_clause_not_match_all (default ("", PNone)
        (head (iteritems query2)))).
      destruct (iteritems query2) as [|kv rest]; simpl in *; congruence.
    + exfalso. apply (match_clause_not_match_all (default ("", PNone)
        (head (iteritems query1)))).
      destruct (iteritems query1) as [|kv rest]; simpl in *; congruence.
    + apply (inj (fmap match_clause)) in Hmust.
      apply map_to_list_inj. unfold iteritems in Hmust. by rewrite Hmust.
  - by injection Hfrom.
  - by injection Hsize.
Qed.

End QueryBuilderMore.

(** X3 at two requests for [{'author': 'alice'}] that differ in the
    offset and the limit asked for, not in the clamped ones. *)
Lemma build_query_determines_query_witness :
  _build_query alice_query (-1) 300 = _build_query alice_query (-3) 500
  ∧ alice_query = alice_query
  ∧ Z.max 0 (-1) = Z.max 0 (-3)
  ∧ Z.min 200 (Z.max 0 300) = Z.min 200 (Z.max 0 500).
Proof.
  split; [reflexivity|].
  apply (build_query_determines_query alice_query alice_query
           (-1) (-3) 300 500).
  reflexivity.
Defined.

(** ** Searching and counting *)

Section SearchMore.
Context {E : Type} (client : Client E).
Implicit Types (cls : ModelClass) (w : world E).

Lemma search_is_search_raw cls (query : option (gmap string py))
    (offset limit : option Z) (params : option (gmap string py))
    (raw_result : bool) w :
  search client cls query offset limit params raw_result w
  = search_raw client cls (Some (_Model_build_query query offset limit))
      params raw_result w.
Proof.
  assert (Htruthy :
    dict_truthy (_Model_build_query query offset limit) = true)
    by apply build_query_truthy.
  unfold search. by rewrite Htruthy.
Qed.

Lemma search_raw_run cls (query params : option (gmap string py))
    (raw_result : bool) w :
  search_raw client cls query params raw_result w =
    let reply :=
      es_search client (index (es cls)) (__type__ cls)
        (default ∅ query) (default ∅ params) (w_env w) in
    let w' :=
      World reply.2 (w_log w)
        (w_calls w ++ [call_search (index (es cls)) (__type__ cls)
                         (default ∅ query) (default ∅ params)]) in
    match reply.1 with
    | Ok res =>
        (Ok (if raw_result then RawResponse res
             else Instances
                    ((λ d, new_instance (hit_source d) (hit_id d))
                       <$> hits_hits res)), w')
    | Raise e => (Raise e, w')
    end.
Proof.
  unfold search_raw, bind, conn_search, request, ret.
  destruct query, params; simpl;
    destruct (es_search _ _ _ _ _ _) as [[res|e] env']; simpl;
    try destruct raw_result; reflexivity.
Qed.

(** X4: when the engine answers, [search_raw] without [raw_result] gives
    one instance per hit, in the order of the hits; the instance of a hit
    has the hit's [_id] under [id], whatever the source holds there, and
    the fields of the source elsewhere. *)
Theorem search_raw_instances cls (query params : option (gmap string py))
    w (res : search_response) :
  (es_search client (index (es cls)) (__type__ cls)
     (default ∅ query) (default ∅ params) (w_env w)).1 = Ok res →
  ∃ docs : list (gmap string py),
    (search_raw client cls query params false w).1 = Ok (Instances docs)
    ∧ length docs = length (hits_hits res)
    ∧ (∀ (i : nat) h, hits_hits res !! i = Some h →
         ∃ d, docs !! i = Some d
              ∧ d !! "id" = Some (hit_id h)
              ∧ ∀ k, k ≠ "id" → d !! k = hit_source h !! k).
Proof.
  intros Hreply.
  exists ((λ d, new_instance (hit_source d) (hit_id d)) <$> hits_hits res).
  rewrite search_raw_run; simpl. rewrite Hreply. split_and!.
  - done.
  - apply length_fmap.
  - intros i h Hi. eexists. split_and!.
    + by rewrite list_lookup_fmap, Hi.
    + apply lookup_insert_eq.
    + intros k Hk. unfold new_instance. by rewrite lookup_insert_ne.
Qed.

(** X5: [search] and [search_raw] catch nothing: an exception of the
    engine on the search request is the exception of the call, after that
    one request and with nothing logged. *)
Theorem search_propagates cls (query : option (gmap string py))
    (offset limit : option Z) (params : option (gmap string py))
    (raw_result : bool) w e :
  (es_search client (index (es cls)) (__type__ cls)
     (_Model_build_query query offset limit) (default ∅ params)
     (w_env w)).1 = Raise e →
  (search client cls query offset limit params raw_result w).1 = Raise e
  ∧ (search_raw client cls (Some (_Model_build_query query offset limit))
       params raw_result w).1 = Raise e
  ∧ w_log (search client cls query offset limit params raw_result w).2
    = w_log w
  ∧ w_calls (search client cls query offset limit params raw_result w).2
    = w_calls w ++
        [call_search (index (es cls)) (__type__ cls)
           (_Model_build_query query offset limit) (default ∅ params)].
Proof.
  intros Hreply. rewrite search_is_search_raw, search_raw_run; simpl.
  by rewrite Hreply.
Qed.

(** X6: [count] sends the request of [search] for the same query, offset
    and limit, with the parameter [search_type] set to [count] over
    whatever the caller gave for it and the caller's other parameters
    kept; it returns the total of the answer, raises what the engine
    raises, and never fails for want of a response. *)
Theorem count_total cls (query : option (gmap string py))
    (offset limit : option Z) (params : option (gmap string py)) w :
  ∃ sent : gmap string py,
    w_calls (count client cls query offset limit (params, w)).2.2
      = w_calls w ++
          [call_search (index (es cls)) (__type__ cls)
             (_Model_build_query query offset limit) sent]
    ∧ sent !! "search_type" = Some (PStr "count")
    ∧ (∀ k, k ≠ "search_type" → sent !! k = default ∅ params !! k)
    ∧ (∀ res,
         (es_search client (index (es cls)) (__type__ cls)
            (_Model_build_query query offset limit) sent (w_env w)).1
         = Ok res →
         (count client cls query offset limit (params, w)).1
         = Ok (Some (hits_total res)))
    ∧ (∀ e,
         (es_search client (index (es cls)) (__type__ cls)
            (_Model_build_query query offset limit) sent (w_env w)).1
         = Raise e →
         (count client cls query offset limit (params, w)).1 = Raise e)
    ∧ (count client cls query offset limit (params, w)).1 ≠ Ok None.
Proof.
  exists (<["search_type" := PStr "count"]> (default ∅ params)).
  unfold count; simpl.
  rewrite search_is_search_raw, search_raw_run; simpl.
  destruct (es_search _ _ _ _ _ _).1 as [res|e]; simpl; split_and!;
    try done; try apply lookup_insert_eq;
    try (intros k Hk; by rewrite lookup_insert_ne);
    by intros ? [= <-].
Qed.

(** X7: [count] changes the parameters of its caller: a dict given as
    [params] holds [search_type] [count] afterwards, also when the search
    raised, and is otherwise as it was. *)
Theorem count_updates_params cls (query : option (gmap string py))
    (offset limit : option Z) (given : gmap string py) w :
  (count client cls query offset limit (Some given, w)).2.1
    = Some (<["search_type" := PStr "count"]> given)
  ∧ (count client cls query offset limit (None, w)).2.1 = None.
Proof.
  unfold count; simpl. split.
  - by destruct (search _ _ _ _ _ _ _ _) as [[?|?] ?].
  - by destruct (search _ _ _ _ _ _ _ _) as [[?|?] ?].
Qed.

End SearchMore.

(** X4 at a search that finds two documents. *)
Lemma search_raw_instances_witness :
  (es_search hits_client (index (es Annotation)) (__type__ Annotation)
     (default ∅ None) (default ∅ None) (w_env world0)).1 = Ok two_hits
  ∧ ∃ docs : list (gmap string py),
      (search_raw hits_client Annotation None None false world0).1
        = Ok (Instances docs)
      ∧ length docs = length (hits_hits two_hits)
      ∧ (∀ (i : nat) h, hits_hits two_hits !! i = Some h →
           ∃ d, docs !! i = Some d
                ∧ d !! "id" = Some (hit_id h)
                ∧ ∀ k, k ≠ "id" → d !! k = hit_source h !! k).
Proof.
  split; [reflexivity|].
  apply (search_raw_instances hits_client Annotation None None world0
           two_hits).
  reflexivity.
Defined.

(** The instances of that search: the stale [id] of the second source is
    replaced. *)
Example search_raw_two_hits :
  (search_raw hits_client Annotation None None false world0).1
  = Ok (Instances
      [ {[ "text" := PStr "hello"; "id" := PStr "a1" ]};
        {[ "text" := PStr "bye"; "id" := PStr "a2" ]} ]).
Proof. vm_compute. reflexivity. Qed.

(** X5 at a client that cannot connect. *)
Lemma search_propagates_witness :
  (es_search down_client (index (es Annotation)) (__type__ Annotation)
     (_Model_build_query (Some alice_query) None None) (default ∅ None)
     (w_env world0)).1 = Raise (ConnectionError "refused")
  ∧ (search down_client Annotation (Some alice_query) None None None false
       world0).1 = Raise (ConnectionError "refused")
  ∧ (search_raw down_client Annotation
       (Some (_Model_build_query (Some alice_query) None None))
       None false world0).1 = Raise (ConnectionError "refused")
  ∧ w_log (search down_client Annotation (Some alice_query) None None None
             false world0).2 = w_log world0
  ∧ w_calls (search down_client Annotation (Some alice_query) None None
               None false world0).2
    = w_calls world0 ++
        [call_search (index (es Annotation)) (__type__ Annotation)
           (_Model_build_query (Some alice_query) None None)
           (default ∅ None)].
Proof.
  split; [reflexivity|].
  apply (search_propagates down_client Annotation (Some alice_query)
           None None None false world0 (ConnectionError "refused")).
  reflexivity.
Defined.

(** ** Saving, again *)

Section SaveMore.
Context {E : Type} (client : Client E).
Implicit Types (cls : ModelClass) (w : world E) (self : gmap string py).

Lemma stamped_created self w : is_Some (stamped client self w !! "created").
Proof.
  rewrite stamped_lookup, add_created_lookup; simpl.
  destruct (self !! "created"); eauto.
Qed.

Lemma stamped_keeps self w k :
  k ≠ "updated" → is_Some (self !! "created") →
  stamped client self w !! k = self !! k.
Proof.
  intros Hk [c Hc]. rewrite stamped_lookup, add_created_lookup.
  rewrite decide_False by done.
  destruct (decide (k = "created")) as [->|]; [|done]. by rewrite Hc.
Qed.

Lemma save_ok_inv cls (refresh : bool) self w d1 w1 :
  save client cls refresh (self, w) = (Ok tt, (d1, w1)) →
  ∃ id, d1 = <["id" := id]> (stamped client self w).
Proof.
  rewrite save_run; simpl.
  destruct (es_index _ _ _ _ _ _ _).1 as [res|e]; [|done].
  intros [= <- _]. eauto.
Qed.

Lemma save_sends cls (refresh : bool) self w :
  w_calls (save client cls refresh (self, w)).2.2
  = w_calls w ++
      [call_index (index (es cls)) (__type__ cls) (stamped client self w)
         (save_op_type self) refresh].
Proof.
  rewrite save_run; simpl. by destruct (es_index _ _ _ _ _ _ _).1.
Qed.

(** X8: a document that [save] has saved is saved again as an update:
    the second request has [op_type] [index], carries the [id] the first
    save stored and the [created] stamp of the first save, and differs
    from the saved document in [updated] at most. *)
Theorem save_again_updates cls (refresh1 refresh2 : bool) self w d1 w1 :
  save client cls refresh1 (self, w) = (Ok tt, (d1, w1)) →
  ∃ (id : py) (body : gmap string py),
    d1 !! "id" = Some id
    ∧ w_calls (save client cls refresh2 (d1, w1)).2.2
      = w_calls w1 ++
          [call_index (index (es cls)) (__type__ cls) body "index" refresh2]
    ∧ body !! "id" = Some id
    ∧ is_Some (d1 !! "created")
    ∧ (∀ k, k ≠ "updated" → body !! k = d1 !! k).
Proof.
  intros [id ->]%save_ok_inv.
  assert (Hcreated :
    is_Some ((<["id" := id]> (stamped client self w) : gmap string py)
               !! "created")).
  { rewrite lookup_insert_ne by done. apply stamped_created. }
  exists id, (stamped client (<["id" := id]> (stamped client self w)) w1).
  split_and!.
  - apply lookup_insert_eq.
  - rewrite save_sends. unfold save_op_type.
    by rewrite lookup_insert_eq, bool_decide_eq_true_2 by eauto.
  - rewrite stamped_keeps by done. apply lookup_insert_eq.
  - done.
  - intros k Hk. by apply stamped_keeps.
Qed.

Lemma fetch_some_id cls (id : py) w d :
  (fetch client cls id w).1 = Ok (Some d) → d !! "id" = Some id.
Proof.
  unfold fetch, bind, try_except, conn_get, request, ret, raise,
    new_instance.
  destruct (es_get _ _ _ _ _) as [[doc|e] env']; simpl.
  - intros [= <-]. apply lookup_insert_eq.
  - destruct e; simpl; done.
Qed.

(** X9: an instance that [fetch] returned is saved as an update of the
    document fetched: the request has [op_type] [index] and its body
    carries the requested id. *)
Theorem save_fetched_updates cls (id : py) (refresh : bool) w w' d :
  (fetch client cls id w).1 = Ok (Some d) →
  ∃ body : gmap string py,
    w_calls (save client cls refresh (d, w')).2.2
      = w_calls w' ++
          [call_index (index (es cls)) (__type__ cls) body "index" refresh]
    ∧ body !! "id" = Some id.
Proof.
  intros Hid%fetch_some_id. exists (stamped client d w'). split.
  - rewrite save_sends. unfold save_op_type.
    by rewrite Hid, bool_decide_eq_true_2 by eauto.
  - rewrite stamped_lookup, add_created_lookup.
    by rewrite !decide_False.
Qed.

(** X10: saving, then fetching.  If the engine, asked for the id that
    [save] stored on the document, answers with the body it was sent
    less its [id] (what the mapping asks of it), then [fetch] returns the
    document as [save] left it: the fields given, the two stamps and the
    id. *)
Theorem save_then_fetch cls (refresh : bool) self w d1 w1 (id : py) h :
  save client cls refresh (self, w) = (Ok tt, (d1, w1)) →
  d1 !! "id" = Some id →
  (es_get client (index (es cls)) (__type__ cls) id (w_env w1)).1 = Ok h →
  hit_source h = base.delete "id" (stamped client self w) →
  (fetch client cls id w1).1 = Ok (Some d1)
  ∧ (∀ k, k ≠ "id" → k ≠ "created" → k ≠ "updated" →
       d1 !! k = self !! k)
  ∧ is_Some (d1 !! "created") ∧ is_Some (d1 !! "updated").
Proof.
  intros [id' ->]%save_ok_inv Hid Hget Hsource.
  rewrite lookup_insert_eq in Hid. injection Hid as ->.
  split_and!.
  - unfold fetch, bind, try_except, conn_get, request, ret, raise,
      new_instance.
    destruct (es_get _ _ _ _ _) as [[doc|e] env']; simpl in *; [|done].
    injection Hget as ->. by rewrite Hsource, insert_delete_eq.
  - intros k ? ? ?. rewrite lookup_insert_ne by done.
    rewrite stamped_lookup, add_created_lookup. by rewrite !decide_False.
  - rewrite lookup_insert_ne by done. apply stamped_created.
  - rewrite lookup_insert_ne by done. rewrite stamped_lookup; simpl. eauto.
Qed.

End SaveMore.

(** The saved document. *)
Example hello_saved_doc :
  hello_saved.1
  = {[ "text" := PStr "hello";
       "created" := PStr "2014-03-01T10:00:00+00:00";
       "updated" := PStr "2014-03-01T10:00:01+00:00";
       "id" := PStr "a1" ]}.
Proof. vm_compute. reflexivity. Qed.

(** X8 at a second save of [hello_doc]. *)
Lemma save_again_updates_witness :
  save store_client Annotation true (hello_doc, world0)
    = (Ok tt, (hello_saved.1, hello_saved.2))
  ∧ ∃ (id : py) (body : gmap string py),
      hello_saved.1 !! "id" = Some id
      ∧ w_calls (save store_client Annotation false
                   (hello_saved.1, hello_saved.2)).2.2
        = w_calls hello_saved.2 ++
            [call_index (index (es Annotation)) (__type__ Annotation) body
               "index" false]
      ∧ body !! "id" = Some id
      ∧ is_Some (hello_saved.1 !! "created")
      ∧ (∀ k, k ≠ "updated" → body !! k = hello_saved.1 !! k).
Proof.
  split; [reflexivity|].
  apply (save_again_updates store_client Annotation true false hello_doc
           world0 hello_saved.1 hello_saved.2).
  reflexivity.
Defined.

(** X9 at the document [a1]. *)
Lemma save_fetched_updates_witness :
  (fetch store_client Annotation (PStr "a1") world0).1
    = Ok (Some (<["id" := PStr "a1"]> (hit_source stored_hello)))
  ∧ ∃ body : gmap string py,
      w_calls (save store_client Annotation true
                 (<["id" := PStr "a1"]> (hit_source stored_hello),
                  world0)).2.2
        = w_calls world0 ++
            [call_index (index (es Annotation)) (__type__ Annotation) body
               "index" true]
      ∧ body !! "id" = Some (PStr "a1").
Proof.
  split; [reflexivity|].
  apply (save_fetched_updates store_client Annotation (PStr "a1") true
           world0 world0 (<["id" := PStr "a1"]> (hit_source stored_hello))).
  reflexivity.
Defined.

(** X10 at [hello_doc]. *)
Lemma save_then_fetch_witness :
  save store_client Annotation true (hello_doc, world0)
    = (Ok tt, (hello_saved.1, hello_saved.2))
  ∧ hello_saved.1 !! "id" = Some (PStr "a1")
  ∧ (es_get store_client (index (es Annotation)) (__type__ Annotation)
       (PStr "a1") (w_env hello_saved.2)).1 = Ok stored_hello
  ∧ hit_source stored_hello
    = base.delete "id" (stamped store_client hello_doc world0)
  ∧ (fetch store_client Annotation (PStr "a1") hello_saved.2).1
      = Ok (Some hello_saved.1)
  ∧ (∀ k, k ≠ "id" → k ≠ "created" → k ≠ "updated" →
       hello_saved.1 !! k = hello_doc !! k)
  ∧ is_Some (hello_saved.1 !! "created")
  ∧ is_Some (hello_saved.1 !! "updated").
Proof.
  assert (Hsource : hit_source stored_hello
            = base.delete "id" (stamped store_client hello_doc world0)).
  { vm_compute. reflexivity. }
  split_and!; [reflexivity|reflexivity|reflexivity|exact Hsource|..];
    apply (save_then_fetch store_client Annotation true hello_doc world0
             hello_saved.1 hello_saved.2 (PStr "a1") stored_hello);
    first [reflexivity | exact Hsource].
Defined.

(** ** Creating the index, again *)

Section CreateAllMore.
Context {E : Type} (client : Client E).
Implicit Types (cls : ModelClass) (w : world E).

(** X11: [create_all] asks for the index first, and for the mapping next
    exactly when the index was created or exists already; the mapping it
    sends is that of [get_mapping].  It sends nothing else. *)
Theorem create_all_requests cls w :
  (index_ensured (create_reply client cls w).1 →
   w_calls (create_all client cls w).2
   = w_calls w ++
       [call_indices_create (index (es cls));
        call_indices_put_mapping (index (es cls)) (__type__ cls)
          (get_mapping cls)])
  ∧ (¬ index_ensured (create_reply client cls w).1 →
     w_calls (create_all client cls w).2
     = w_calls w ++ [call_indices_create (index (es cls))]).
Proof.
  unfold create_reply, create_all, bind, try_except, log,
    conn_indices_create, conn_indices_put_mapping, request, clock,
    read_clock, raise, ret; simpl.
  destruct (es_indices_create _ _ _) as [[[]|e1] env1]; simpl.
  - split; [intros _|by intros []].
    destruct (es_indices_put_mapping _ _ _ _ _) as [[[]|e2] env2]; simpl;
      rewrite <- ?app_assoc; [done|].
    destruct e2; simpl; try done.
    destruct (String.prefix _ _); simpl; [|done].
    by destruct (time_strftime _ _ _).
  - destruct e1; simpl; try (split; [done|by intros _]).
    destruct (index_exists_error error) eqn:Hex; simpl.
    + split; [intros _|by intros []].
      destruct (es_indices_put_mapping _ _ _ _ _) as [[[]|e2] env2]; simpl;
        rewrite <- ?app_assoc; [done|].
      destruct e2; simpl; try done.
      destruct (String.prefix _ _); simpl; [|done].
      by destruct (time_strftime _ _ _).
    + split; [done|by intros _].
Qed.

(** X12: what [create_all] logs: the opening record, then a warning if
    index creation failed with "already exists", a fatal record if it
    failed with another [RequestError], and nothing more; neither an
    error of index creation that is no [RequestError] nor anything about
    the mapping is logged. *)
Theorem create_all_log cls w :
  w_log (create_all client cls w).2
  = w_log w ++
      (INFO, "Creating index '" +:+ index (es cls) +:+ "'.") ::
      match (create_reply client cls w).1 with
      | Raise (RequestError error) =>
          if index_exists_error error
          then [(WARN,
                 "Index creation failed as index appears to already exist.")]
          else [(FATAL, "Failed to create an Elasticsearch index")]
      | _ => []
      end.
Proof.
  unfold create_reply, create_all, bind, try_except, log,
    conn_indices_create, conn_indices_put_mapping, request, clock,
    read_clock, raise, ret; simpl.
  destruct (es_indices_create _ _ _) as [[[]|e1] env1]; simpl.
  - destruct (es_indices_put_mapping _ _ _ _ _) as [[[]|e2] env2]; simpl;
      [done|].
    destruct e2; simpl; try done.
    destruct (String.prefix _ _); simpl; [|done].
    by destruct (time_strftime _ _ _).
  - destruct e1; simpl; try done.
    destruct (index_exists_error error) eqn:Hex; simpl;
      rewrite <- ?app_assoc; [|done].
    destruct (es_indices_put_mapping _ _ _ _ _) as [[[]|e2] env2]; simpl;
      [done|].
    destruct e2; simpl; try done.
    destruct (String.prefix _ _); simpl; [|done].
    by destruct (time_strftime _ _ _).
Qed.

End CreateAllMore.

(** ** Dropping the index and deleting a document *)

Section AdminMore.
Context {E : Type} (admin : AdminClient E).
Implicit Types (cls : ModelClass) (w : admin_world E)
  (self : gmap string py).

(** X13: on an index that does not exist [drop_all] does nothing: after
    asking whether it exists it returns, with no request to close or to
    delete. *)
Theorem drop_all_absent cls w :
  (es_indices_exists admin (index (es cls)) (aw_env w)).1 = Ok false →
  (drop_all admin cls w).1 = Ok tt
  ∧ aw_calls (drop_all admin cls w).2
    = aw_calls w ++ [call_indices_exists (index (es cls))].
Proof.
  unfold drop_all, bind, admin_request, ret.
  destruct (es_indices_exists _ _ _) as [r env']; simpl.
  by intros ->.
Qed.

(** X14: [drop_all] asks to delete the index only after the engine said
    that it exists and closed it: then the requests are exists, close,
    delete, in that order.  It returns without an exception exactly when
    the index does not exist or all three requests succeeded. *)
Theorem drop_all_closes_before_delete cls w :
  ∃ later : list admin_call,
    aw_calls (drop_all admin cls w).2
      = aw_calls w ++ call_indices_exists (index (es cls)) :: later
    ∧ (call_indices_delete (index (es cls)) ∈ later
       ↔ (es_indices_exists admin (index (es cls)) (aw_env w)).1 = Ok true
         ∧ (es_indices_close admin (index (es cls))
              (es_indices_exists admin (index (es cls)) (aw_env w)).2).1
           = Ok tt)
    ∧ (call_indices_delete (index (es cls)) ∈ later →
       later = [call_indices_close (index (es cls));
                call_indices_delete (index (es cls))])
    ∧ ((drop_all admin cls w).1 = Ok tt
       ↔ (es_indices_exists admin (index (es cls)) (aw_env w)).1 = Ok false
         ∨ ((es_indices_exists admin (index (es cls)) (aw_env w)).1
            = Ok true
            ∧ (es_indices_close admin (index (es cls))
                 (es_indices_exists admin (index (es cls))
                    (aw_env w)).2).1 = Ok tt
            ∧ (es_indices_delete admin (index (es cls))
                 (es_indices_close admin (index (es cls))
                    (es_indices_exists admin (index (es cls))
                       (aw_env w)).2).2).1 = Ok tt)).
Proof.
  unfold drop_all, bind, admin_request, ret.
  destruct (es_indices_exists _ _ _) as [[[]|e0] env0]; simpl.
  - destruct (es_indices_close _ _ _) as [[[]|e1] env1]; simpl.
    + destruct (es_indices_delete _ _ _) as [[[]|e2] env2]; simpl.
      * eexists. rewrite <- !app_assoc. split_and!; [done|..].
        -- split; [done|]. intros _. set_solver.
        -- done.
        -- split; [|done]. intros _. by right.
      * eexists. rewrite <- !app_assoc. split_and!; [done|..].
        -- split; [done|]. intros _. set_solver.
        -- done.
        -- split; [done|]. intros [?|(_ & _ & ?)]; done.
    + eexists. rewrite <- !app_assoc. split_and!; [done|..].
      * split; [|by intros [_ ?]].
        intros Hin. apply list_elem_of_singleton in Hin. done.
      * intros Hin. apply list_elem_of_singleton in Hin. done.
      * split; [done|]. intros [?|(_ & ? & _)]; done.
  - exists []. split_and!; [done|..].
    + split; [|by intros [? _]]. intros Hin. by apply elem_of_nil in Hin.
    + intros Hin. by apply elem_of_nil in Hin.
    + split; [by left|done].
  - exists []. split_and!; [done|..].
    + split; [|by intros [? _]]. intros Hin. by apply elem_of_nil in Hin.
    + intros Hin. by apply elem_of_nil in Hin.
    + split; [done|]. intros [?|(? & _)]; done.
Qed.

(** X15: deleting a document that has no [id] does nothing at all: no
    request is sent, and nothing is raised.  That is so for a new
    document, and still so after a [save] of it that raised. *)
Theorem delete_unsaved {E' : Type} (client : Client E') cls self
    (refresh : bool) (w' : world E') w :
  self !! "id" = None →
  delete admin cls self w = (Ok tt, w)
  ∧ (∀ e d1 (w1 : world E'),
       save client cls refresh (self, w') = (Raise e, (d1, w1)) →
       d1 !! "id" = None ∧ delete admin cls d1 w = (Ok tt, w)).
Proof.
  intros Hid. split.
  - unfold delete. by rewrite Hid.
  - intros e d1 w1. rewrite save_run; simpl.
    destruct (es_index _ _ _ _ _ _ _).1 as [res|e0]; [done|].
    intros [= _ <- _].
    assert (Hnone : stamped client self w' !! "id" = None).
    { rewrite stamped_lookup, add_created_lookup.
      by rewrite !decide_False. }
    split; [done|]. unfold delete. by rewrite Hnone.
Qed.

(** X16: deleting a document that has an [id] sends one delete request,
    for that id, and the outcome is the engine's: unlike [fetch],
    [delete] lets a [NotFoundError] through. *)
Theorem delete_by_id cls self w (id : py) :
  self !! "id" = Some id →
  aw_calls (delete admin cls self w).2
    = aw_calls w ++ [call_delete (index (es cls)) (__type__ cls) id]
  ∧ (delete admin cls self w).1
    = (es_delete admin (index (es cls)) (__type__ cls) id (aw_env w)).1
  ∧ (∀ source, delete admin cls (new_instance source id) w
               = delete admin cls self w).
Proof.
  intros Hid. unfold delete, new_instance. rewrite Hid.
  split_and!.
  - unfold admin_request. by destruct (es_delete _ _ _ _ _).
  - unfold admin_request. by destruct (es_delete _ _ _ _ _).
  - intros source. by rewrite lookup_insert_eq.
Qed.

End AdminMore.

(** X13 at a client with no index. *)
Lemma drop_all_absent_witness :
  (es_indices_exists absent_admin (index (es Annotation))
     (aw_env admin_world0)).1 = Ok false
  ∧ (drop_all absent_admin Annotation admin_world0).1 = Ok tt
  ∧ aw_calls (drop_all absent_admin Annotation admin_world0).2
    = aw_calls admin_world0 ++ [call_indices_exists (index (es Annotation))].
Proof.
  split; [reflexivity|].
  apply (drop_all_absent absent_admin Annotation admin_world0).
  reflexivity.
Defined.

(** X15 at a new document, which a client that cannot connect fails to
    save. *)
Lemma delete_unsaved_witness :
  hello_doc !! "id" = None
  ∧ delete gone_admin Annotation hello_doc admin_world0
    = (Ok tt, admin_world0)
  ∧ (∀ e d1 w1,
       save down_client Annotation true (hello_doc, world0)
         = (Raise e, (d1, w1)) →
       d1 !! "id" = None
       ∧ delete gone_admin Annotation d1 admin_world0
         = (Ok tt, admin_world0)).
Proof.
  split; [reflexivity|].
  apply (delete_unsaved gone_admin down_client Annotation hello_doc true
           world0 admin_world0).
  reflexivity.
Defined.

(** The save that fails there. *)
Example save_down_raises :
  (save down_client Annotation true (hello_doc, world0)).1
  = Raise (ConnectionError "refused").
Proof. reflexivity. Qed.

(** X16 at a saved document that the engine has no more. *)
Lemma delete_by_id_witness :
  hello_saved.1 !! "id" = Some (PStr "a1")
  ∧ aw_calls (delete gone_admin Annotation hello_saved.1 admin_world0).2
    = aw_calls admin_world0 ++
        [call_delete (index (es Annotation)) (__type__ Annotation)
           (PStr "a1")]
  ∧ (delete gone_admin Annotation hello_saved.1 admin_world0).1
    = (es_delete gone_admin (index (es Annotation)) (__type__ Annotation)
         (PStr "a1") (aw_env admin_world0)).1
  ∧ (∀ source, delete gone_admin Annotation
                 (new_instance source (PStr "a1")) admin_world0
               = delete gone_admin Annotation hello_saved.1 admin_world0).
Proof.
  split; [reflexivity|].
  apply (delete_by_id gone_admin Annotation hello_saved.1 admin_world0
           (PStr "a1")).
  reflexivity.
Defined.

(** Deleting that document raises. *)
Example delete_gone_raises :
  (delete gone_admin Annotation hello_saved.1 admin_world0).1
  = Raise (NotFoundError "DocumentMissingException").
Proof. reflexivity. Qed.

(** ** The connection *)

Section ConnectMore.
Variable urlparse : string → ParseResult.

Lemma connargs_lookup (parsed : ParseResult) (k : string) :
  connargs parsed !! k =
    if decide (k = "url_prefix")
    then (if decide (path parsed = "") then None
          else Some (PStr (path parsed)))
    else if decide (k = "port") then PInt <$> port parsed
    else if decide (k = "http_auth")
    then (if decide (username parsed ≠ None ∨ password parsed ≠ None)
          then Some (PList [PStr (default "" (username parsed));
                            PStr (default "" (password parsed))])
          else None)
    else if decide (k = "host")
    then Some (py_of_optional (hostname parsed))
    else None.
Proof.
  unfold connargs, dict_display; simpl.
  destruct (decide (path parsed = "")) as [Hpath|Hpath].
  - rewrite bool_decide_eq_false_2 by (by intros []).
    destruct (port parsed) as [p|];
      destruct (decide (_ ∨ _)) as [Hauth|Hauth];
      rewrite ?(bool_decide_eq_true_2 _ Hauth),
        ?(bool_decide_eq_false_2 _ Hauth);
      repeat (destruct (decide (k = _)) as [->|?]);
      by simplify_map_eq.
  - rewrite bool_decide_eq_true_2 by done.
    destruct (port parsed) as [p|];
      destruct (decide (_ ∨ _)) as [Hauth|Hauth];
      rewrite ?(bool_decide_eq_true_2 _ Hauth),
        ?(bool_decide_eq_false_2 _ Hauth);
      repeat (destruct (decide (k = _)) as [->|?]);
      by simplify_map_eq.
Qed.

(** X17: the connection arguments of [_connect] always give [host]; they
    give [http_auth] exactly when the descriptor has a user name or a
    password, as a pair of strings in which the missing one is empty; they
    give [port] exactly when the descriptor has one and [url_prefix]
    exactly when its path is not empty; they give nothing else. *)
Theorem connargs_entries (parsed : ParseResult) :
  connargs parsed !! "host" = Some (py_of_optional (hostname parsed))
  ∧ (is_Some (connargs parsed !! "http_auth")
     ↔ is_Some (username parsed) ∨ is_Some (password parsed))
  ∧ (∀ v, connargs parsed !! "http_auth" = Some v →
       v = PList [PStr (default "" (username parsed));
                  PStr (default "" (password parsed))])
  ∧ connargs parsed !! "port" = PInt <$> port parsed
  ∧ (is_Some (connargs parsed !! "url_prefix") ↔ path parsed ≠ "")
  ∧ (∀ v, connargs parsed !! "url_prefix" = Some v → v = PStr (path parsed))
  ∧ (∀ k, k ≠ "host" → k ≠ "http_auth" → k ≠ "port" → k ≠ "url_prefix" →
       connargs parsed !! k = None).
Proof.
  split_and!.
  - by rewrite connargs_lookup.
  - rewrite connargs_lookup; simpl.
    destruct (decide (_ ∨ _)) as [Hauth|Hauth].
    + split; [intros _|by eauto].
      destruct Hauth as [Hu|Hp]; [left|right];
        by apply not_eq_None_Some.
    + split; [by intros [? ?]|].
      intros [Hu|Hp]; exfalso; apply Hauth; [left|right];
        by apply not_eq_None_Some.
  - intros v. rewrite connargs_lookup; simpl.
    destruct (decide (_ ∨ _)); by intros [= <-].
  - by rewrite connargs_lookup.
  - rewrite connargs_lookup; simpl.
    destruct (decide (path parsed = "")) as [Hpath|Hpath].
    + split; [by intros [? ?]|done].
    + split; [done|by eauto].
  - intros v. rewrite connargs_lookup; simpl.
    destruct (decide (path parsed = "")); by intros [= <-].
  - intros k ? ? ? ?. rewrite connargs_lookup.
    by rewrite !decide_False.
Qed.

(** X18: the connection is made once.  The first read of [conn] makes it
    from the host of that moment; a later read returns the same
    connection and leaves the object as it is, also after [host] has been
    changed; only a change of [host] before the first read has an
    effect. *)
Theorem conn_memoized (o : ESObject) (h : string) :
  conn urlparse (conn urlparse o).2 = conn urlparse o
  ∧ (conn urlparse (set_host h (conn urlparse o).2)).1
    = (conn urlparse o).1
  ∧ (_connection o = None →
     (conn urlparse o).1
       = {| hosts := [connargs (urlparse (host (settings o)))] |}
     ∧ (conn urlparse (set_host h o)).1
       = {| hosts := [connargs (urlparse h)] |})
  ∧ (conn urlparse (ElasticSearch_init None None None)).1
    = {| hosts := [connargs (urlparse "http://127.0.0.1:9200")] |}.
Proof.
  unfold conn, set_host, _connect.
  destruct o as [cfg [c|]]; simpl; split_and!; try done.
Qed.

End ConnectMore.
